(** * The shared-context store of [context_server.py]

    A shallow embedding of [ContextEntry], [SharedContext] and
    [ContextServer], together with the fragment of the Python run time
    the server calls into: dynamically typed values, insertion-ordered
    dictionaries, [dict.update], [list.extend], slicing, and the
    [json.dump]/[json.load] pair.

    The server is an asyncio object; every public coroutine body runs
    without an inner [await], so an operation is modelled as one
    function from the store before the call to the store after it,
    paired with the exception it raised (if any). *)

From Stdlib Require Import ZArith List String Ascii Bool Lia DecimalString Permutation.
Import ListNotations.
Local Open Scope string_scope.
Local Open Scope list_scope.
Local Open Scope Z_scope.

Set Implicit Arguments.
Set Warnings "-register-all".

(** ** Exceptions and results *)

Inductive exn : Type :=
| TypeError
| ValueError
| AttributeError
| KeyError
| OSError
| JSONDecodeError.

Inductive result (A : Type) : Type :=
| Ok (a : A)
| Raise (e : exn).

Arguments Ok {A} a.
Arguments Raise {A} e.

Definition bind {A B : Type} (r : result A) (f : A -> result B) : result B :=
  match r with
  | Ok a => f a
  | Raise e => Raise e
  end.

Notation "x <- r ;; k" := (bind r (fun x => k))
  (at level 61, r at next level, right associativity).

Fixpoint mapM {A B : Type} (f : A -> result B) (l : list A) : result (list B) :=
  match l with
  | [] => Ok []
  | a :: t => b <- f a ;; bs <- mapM f t ;; Ok (b :: bs)
  end.

(** ** Python values

    The JSON-shaped fragment of Python objects: [None], booleans,
    integers, strings, lists and dictionaries.  Floats are left out.
    A string is a sequence of characters, one [ascii] per code point.
    A dictionary is the list of its items in insertion order; its keys
    are hashable scalars. *)

Inductive pykey : Type :=
| KNone
| KBool (b : bool)
| KInt (z : Z)
| KStr (s : string).

Inductive pyval : Type :=
| PNone
| PBool (b : bool)
| PInt (z : Z)
| PStr (s : string)
| PList (l : list pyval)
| PDict (d : list (pykey * pyval)).

Definition pydict : Type := list (pykey * pyval).

(** [True == 1] and [False == 0], also as dictionary keys: keys are
    compared after sending a boolean to its integer. *)
Definition key_norm (k : pykey) : pykey :=
  match k with
  | KBool true => KInt 1
  | KBool false => KInt 0
  | _ => k
  end.

Definition key_eqb (k1 k2 : pykey) : bool :=
  match key_norm k1, key_norm k2 with
  | KNone, KNone => true
  | KInt a, KInt b => Z.eqb a b
  | KStr a, KStr b => String.eqb a b
  | _, _ => false
  end.

Definition key_val (k : pykey) : pyval :=
  match k with
  | KNone => PNone
  | KBool b => PBool b
  | KInt z => PInt z
  | KStr s => PStr s
  end.

(** [hash(v)]: lists and dictionaries are unhashable. *)
Definition hash_key (v : pyval) : result pykey :=
  match v with
  | PNone => Ok KNone
  | PBool b => Ok (KBool b)
  | PInt z => Ok (KInt z)
  | PStr s => Ok (KStr s)
  | PList _ | PDict _ => Raise TypeError
  end.

(** *** Dictionaries *)

(** [d.get(k)] as an option; [k in d]; [d.get(k, default)]. *)
Fixpoint dict_get (k : pykey) (d : pydict) : option pyval :=
  match d with
  | [] => None
  | (k', v) :: t => if key_eqb k' k then Some v else dict_get k t
  end.

Definition dict_mem (k : pykey) (d : pydict) : bool :=
  match dict_get k d with Some _ => true | None => false end.

Definition dict_get_default (d : pydict) (k : pykey) (default : pyval) : pyval :=
  match dict_get k d with Some v => v | None => default end.

(** [d[k] = v]: an existing key keeps its place (and its first
    spelling), a new key goes last. *)
Fixpoint dict_set (k : pykey) (v : pyval) (d : pydict) : pydict :=
  match d with
  | [] => [(k, v)]
  | (k', v') :: t =>
      if key_eqb k' k then (k', v) :: t else (k', v') :: dict_set k v t
  end.

Definition dict_keys (d : pydict) : list pykey := map fst d.

(** The items of a real dictionary have pairwise different keys. *)
Fixpoint keys_distinct (ks : list pykey) : bool :=
  match ks with
  | [] => true
  | k :: t => negb (existsb (key_eqb k) t) && keys_distinct t
  end.

(** *** Iteration, [list.extend], [dict.update], [dict(...)], [len] *)

Definition chars (s : string) : list pyval :=
  map (fun c => PStr (String c EmptyString)) (list_ascii_of_string s).

(** [iter(v)]: a list yields its elements, a string its characters,
    a dictionary its keys; nothing else in the fragment is iterable. *)
Definition iter (v : pyval) : result (list pyval) :=
  match v with
  | PList l => Ok l
  | PStr s => Ok (chars s)
  | PDict d => Ok (map key_val (dict_keys d))
  | PNone | PBool _ | PInt _ => Raise TypeError
  end.

(** [d.update(other)] for a dictionary [other]. *)
Definition dict_merge (d other : pydict) : pydict :=
  fold_left (fun acc kv => dict_set (fst kv) (snd kv) acc) other d.

(** [d.update(other)] for an iterable of key/value pairs: the items
    are stored one by one, so what was stored before a bad item
    stays. *)
Fixpoint dict_merge_seq2 (d : pydict) (items : list pyval) : pydict * option exn :=
  match items with
  | [] => (d, None)
  | item :: rest =>
      match iter item with
      | Raise _ => (d, Some TypeError)
      | Ok [k; v] =>
          match hash_key k with
          | Ok k' => dict_merge_seq2 (dict_set k' v d) rest
          | Raise e => (d, Some e)
          end
      | Ok _ => (d, Some ValueError)
      end
  end.

Definition dict_update (d : pydict) (other : pyval) : pydict * option exn :=
  match other with
  | PDict o => (dict_merge d o, None)
  | _ =>
      match iter other with
      | Raise e => (d, Some e)
      | Ok items => dict_merge_seq2 d items
      end
  end.

(** [dict(v)]: a copy of a dictionary, or a dictionary built from an
    iterable of pairs. *)
Definition dict_ctor (v : pyval) : result pydict :=
  match v with
  | PDict d => Ok d
  | _ =>
      match dict_update [] v with
      | (d, None) => Ok d
      | (_, Some e) => Raise e
      end
  end.

Definition len (v : pyval) : result Z :=
  match v with
  | PList l => Ok (Z.of_nat (List.length l))
  | PDict d => Ok (Z.of_nat (List.length d))
  | PStr s => Ok (Z.of_nat (String.length s))
  | PNone | PBool _ | PInt _ => Raise TypeError
  end.

(** *** Slicing: [l[start:]] *)

Definition slice_start (start : Z) (n : nat) : nat :=
  if start <? 0
  then Z.to_nat (Z.max 0 (start + Z.of_nat n))
  else Nat.min (Z.to_nat start) n.

Definition slice_from {A : Type} (start : Z) (l : list A) : list A :=
  skipn (slice_start start (List.length l)) l.

(** [v[start:]] on a value: lists and strings slice; a dictionary
    rejects the slice as a key ([TypeError] up to Python 3.11,
    [KeyError] after); the scalars are not subscriptable. *)
Definition getslice_from (start : Z) (v : pyval) : result pyval :=
  match v with
  | PList l => Ok (PList (slice_from start l))
  | PStr s =>
      Ok (PStr (string_of_list_ascii (slice_from start (list_ascii_of_string s))))
  | PDict _ | PNone | PBool _ | PInt _ => Raise TypeError
  end.

(** ** JSON

    [json.dump] writes every dictionary key as a string ([1] as
    ["1"], [True] as ["true"], [None] as ["null"]) and [json.load]
    keeps the last value of a repeated key.  [json_document v] is the
    value [json.load] reads from what [json.dump] wrote for [v]. *)





Definition is_str_key (k : pykey) : bool :=
  match k with KStr _ => true | _ => false end.







(** ** The data classes *)

(** [ContextEntry]: the annotations say [str], [str], [Dict[str, Any]];
    a data class does not check them, and [import_context] stores
    whatever the file holds, so the fields are plain values. *)
Record ContextEntry : Type := {
  model : pyval;
  timestamp : pyval;
  content : pyval
}.

(** [SharedContext].  [conversations] is always a list of entries;
    the other two fields are whatever was put there. *)
Record SharedContext : Type := {
  conversations : list ContextEntry;
  tool_outputs : pyval;
  discovered_info : pyval
}.

(** [SharedContext()], the store of a new [ContextServer]. *)
Definition empty_context : SharedContext :=
  {| conversations := []; tool_outputs := PList []; discovered_info := PDict [] |}.

(** [ContextEntry.to_dict], that is [dataclasses.asdict]. *)
Definition entry_to_dict (c : ContextEntry) : pyval :=
  PDict [(KStr "model", model c);
         (KStr "timestamp", timestamp c);
         (KStr "content", content c)].


(** The annotations of the two data classes, as predicates. *)
Definition entry_typed (c : ContextEntry) : bool :=
  match model c, timestamp c, content c with
  | PStr _, PStr _, PDict _ => true
  | _, _, _ => false
  end.

Definition store_typed (ctx : SharedContext) : bool :=
  forallb entry_typed (conversations ctx)
  && match tool_outputs ctx with PList _ => true | _ => false end
  && match discovered_info ctx with PDict _ => true | _ => false end.

(** ** [ContextServer]

    The state of a server is its [shared_context]; [_lock] guards the
    coroutines and carries no data. *)

(** [self.shared_context.discovered_info.update(context["discoveries"])] *)
Definition merge_discoveries (ctx : SharedContext) (discoveries : pyval)
  : SharedContext * option exn :=
  match discovered_info ctx with
  | PDict d =>
      let (d', e) := dict_update d discoveries in
      ({| conversations := conversations ctx;
          tool_outputs := tool_outputs ctx;
          discovered_info := PDict d' |}, e)
  | _ => (ctx, Some AttributeError)
  end.

(** [self.shared_context.tool_outputs.extend(context["tool_outputs"])] *)
Definition extend_tool_outputs (ctx : SharedContext) (outputs : pyval)
  : SharedContext * option exn :=
  match tool_outputs ctx with
  | PList l =>
      match iter outputs with
      | Ok xs =>
          ({| conversations := conversations ctx;
              tool_outputs := PList (l ++ xs);
              discovered_info := discovered_info ctx |}, None)
      | Raise e => (ctx, Some e)
      end
  | _ => (ctx, Some AttributeError)
  end.

(** [store_context(model, context)]; [now] is what
    [datetime.now().isoformat()] returns during the call. *)
Definition store_context (ctx : SharedContext) (model : string) (now : string)
    (context : pydict) : SharedContext * option exn :=
  let entry := {| model := PStr model; timestamp := PStr now; content := PDict context |} in
  let ctx1 := {| conversations := conversations ctx ++ [entry];
                 tool_outputs := tool_outputs ctx;
                 discovered_info := discovered_info ctx |} in
  let (ctx2, e) :=
    match dict_get (KStr "discoveries") context with
    | Some discoveries => merge_discoveries ctx1 discoveries
    | None => (ctx1, None)
    end in
  match e with
  | Some _ => (ctx2, e)
  | None =>
      match dict_get (KStr "tool_outputs") context with
      | Some outputs => extend_tool_outputs ctx2 outputs
      | None => (ctx2, None)
      end
  end.

(** [conv.model != for_model], with [for_model] a string: a value
    that is not a string differs from every string. *)
Definition model_differs (for_model : string) (conv : ContextEntry) : bool :=
  match model conv with
  | PStr m => negb (String.eqb m for_model)
  | _ => true
  end.

(** One round of the loop of [_format_previous_analysis]. *)
Definition format_conv (conv : ContextEntry) : result pyval :=
  match content conv with
  | PDict c =>
      Ok (PDict [(KStr "model", model conv);
                 (KStr "timestamp", timestamp conv);
                 (KStr "summary", dict_get_default c (KStr "summary") (PStr ""));
                 (KStr "findings", dict_get_default c (KStr "findings") (PList []));
                 (KStr "suggestions", dict_get_default c (KStr "suggestions") (PList []))])
  | _ => Raise AttributeError
  end.

Definition _format_previous_analysis (conversations : list ContextEntry)
  : result (list pyval) :=
  mapM format_conv conversations.

(** The dictionary [get_context] returns. *)
Definition relevant_context (previous_analysis : list pyval) (key_findings : pydict)
    (recent_tool_outputs : pyval) : pyval :=
  PDict [(KStr "previous_analysis", PList previous_analysis);
         (KStr "key_findings", PDict key_findings);
         (KStr "recent_tool_outputs", recent_tool_outputs)].

Definition other_conversations (ctx : SharedContext) (for_model : string)
    (max_entries : Z) : list ContextEntry :=
  slice_from (- max_entries) (filter (model_differs for_model) (conversations ctx)).

(** [get_context(for_model, max_entries)] *)
Definition get_context (ctx : SharedContext) (for_model : string) (max_entries : Z)
  : result pyval :=
  pa <- _format_previous_analysis (other_conversations ctx for_model max_entries) ;;
  kf <- dict_ctor (discovered_info ctx) ;;
  rto <- getslice_from (-10) (tool_outputs ctx) ;;
  Ok (relevant_context pa kf rto).

(** [clear_context()] *)
Definition clear_context (ctx : SharedContext) : SharedContext := empty_context.

(** [set(...)] of a list of values: the members without repetition,
    here in the order in which they were first added. *)
Fixpoint set_add (k : pykey) (s : list pykey) : list pykey :=
  match s with
  | [] => [k]
  | k' :: t => if key_eqb k' k then s else k' :: set_add k t
  end.

Section HashOrder.

(** Python leaves the order in which a set is listed to the hashes of
    its members, and the hash of a string to the seed of the process.
    [hash_rank] stands for that seed: a set is listed by increasing
    rank, so that every order of the members is the order of some
    seed. *)
Variable hash_rank : pykey -> Z.

Fixpoint rank_insert (k : pykey) (l : list pykey) : list pykey :=
  match l with
  | [] => [k]
  | k' :: t => if hash_rank k <? hash_rank k' then k :: l else k' :: rank_insert k t
  end.

(** [list(s)] for a set [s]. *)
Definition set_iteration (s : list pykey) : list pykey :=
  fold_right rank_insert [] s.

(** [list(set(vs))] *)
Definition set_of (vs : list pyval) : result (list pykey) :=
  ks <- mapM hash_key vs ;;
  Ok (set_iteration (fold_left (fun s k => set_add k s) ks [])).

(** [get_summary()] *)
Definition get_summary (ctx : SharedContext) : result pyval :=
  models <- set_of (map model (conversations ctx)) ;;
  dc <- len (discovered_info ctx) ;;
  tc <- len (tool_outputs ctx) ;;
  Ok (PDict [(KStr "total_conversations", PInt (Z.of_nat (List.length (conversations ctx))));
             (KStr "models_involved", PList (map key_val models));
             (KStr "discoveries_count", PInt dc);
             (KStr "tool_outputs_count", PInt tc)]).

End HashOrder.



(** [ContextEntry] called with the items of [conv] as its keyword
    arguments: [conv] has to be a mapping whose keys are strings, name
    fields only, and name every field. *)
Definition is_field (k : pykey) : bool :=
  key_eqb k (KStr "model") || key_eqb k (KStr "timestamp") || key_eqb k (KStr "content").

Definition make_entry (conv : pyval) : result ContextEntry :=
  match conv with
  | PDict kw =>
      if forallb (fun k => is_str_key k && is_field k) (dict_keys kw) then
        match dict_get (KStr "model") kw,
              dict_get (KStr "timestamp") kw,
              dict_get (KStr "content") kw with
        | Some m, Some t, Some c => Ok {| model := m; timestamp := t; content := c |}
        | _, _, _ => Raise TypeError
        end
      else Raise TypeError
  | _ => Raise TypeError
  end.

(** The statements of [import_context] after [json.load] returned
    [data]: the new [SharedContext] is built first and assigned
    last. *)
Definition rebuild_context (data : pyval) : result SharedContext :=
  match data with
  | PDict d =>
      convs <- iter (dict_get_default d (KStr "conversations") (PList [])) ;;
      entries <- mapM make_entry convs ;;
      Ok {| conversations := entries;
            tool_outputs := dict_get_default d (KStr "tool_outputs") (PList []);
            discovered_info := dict_get_default d (KStr "discovered_info") (PDict []) |}
  | _ => Raise AttributeError
  end.

(** [import_context(filepath)]; [file] is what [open] and [json.load]
    produce: the parsed document, or the exception of a missing or
    unparsable file. *)
Definition import_context (ctx : SharedContext) (file : result pyval)
  : SharedContext * option exn :=
  match file with
  | Raise e => (ctx, Some e)
  | Ok data =>
      match rebuild_context data with
      | Ok ctx' => (ctx', None)
      | Raise e => (ctx, Some e)
      end
  end.

(** ** Runs of [store_context] *)

Record call : Type := {
  call_model : string;
  call_now : string;
  call_context : pydict
}.

Definition entry_of (c : call) : ContextEntry :=
  {| model := PStr (call_model c);
     timestamp := PStr (call_now c);
     content := PDict (call_context c) |}.

(** The store after the calls, made one after the other by a caller
    that goes on after an exception. *)
Definition store_all (ctx : SharedContext) (calls : list call) : SharedContext :=
  fold_left
    (fun s c => fst (store_context s (call_model c) (call_now c) (call_context c)))
    calls ctx.

(** ** Vocabulary of the properties *)

(** The producer recorded in one element of [previous_analysis]. *)
Definition analysis_model (a : pyval) : option pyval :=
  match a with
  | PDict d => dict_get (KStr "model") d
  | _ => None
  end.

(** The [discoveries] sub-map of a payload, empty when the payload
    has none. *)
Definition discoveries_submap (context : pydict) : pydict :=
  match dict_get (KStr "discoveries") context with
  | Some (PDict d) => d
  | _ => []
  end.

(** A payload whose [discoveries] value, when present, is a mapping. *)
Definition discoveries_is_mapping (context : pydict) : bool :=
  match dict_get (KStr "discoveries") context with
  | Some (PDict _) | None => true
  | Some _ => false
  end.

(** Left-to-right union of maps, read at one key: the binding met
    last wins. *)
Definition last_binding (k : pykey) (items : pydict) : option pyval :=
  dict_get k (rev items).

Definition union_lookup (maps : list pydict) (k : pykey) : option pyval :=
  last_binding k (List.concat maps).

(** A value [dict.update] and [list.extend] cannot iterate over. *)
Definition not_iterable (v : pyval) : bool :=
  match v with
  | PNone | PBool _ | PInt _ => true
  | PStr _ | PList _ | PDict _ => false
  end.

(** The three top-level fields of a snapshot are absent from [d]. *)
Definition fields_absent (d : pydict) : bool :=
  negb (dict_mem (KStr "conversations") d)
  && negb (dict_mem (KStr "tool_outputs") d)
  && negb (dict_mem (KStr "discovered_info") d).



(** ** Sample runs *)

(** The two appends of the example scenario. *)
Definition call_claude : call :=
  {| call_model := "claude"; call_now := "T1";
     call_context := [(KStr "summary", PStr "s1");
                      (KStr "discoveries", PDict [(KStr "lang", PStr "py")])] |}.

Definition call_gpt4 : call :=
  {| call_model := "gpt4"; call_now := "T2";
     call_context := [(KStr "summary", PStr "s2");
                      (KStr "findings", PList [PStr "f1"])] |}.

Definition scenario_store : SharedContext :=
  store_all empty_context [call_claude; call_gpt4].

Definition claude_analysis : pyval :=
  PDict [(KStr "model", PStr "claude");
         (KStr "timestamp", PStr "T1");
         (KStr "summary", PStr "s1");
         (KStr "findings", PList []);
         (KStr "suggestions", PList [])].


(** A payload whose [discoveries] value is a list of pairs. *)
Definition call_pair_list : call :=
  {| call_model := "claude"; call_now := "T1";
     call_context := [(KStr "discoveries", PList [PList [PStr "x"; PInt 1]])] |}.

(** The two appends of the overwrite scenario. *)
Definition call_x (m t : string) (n : Z) : call :=
  {| call_model := m; call_now := t;
     call_context := [(KStr "discoveries", PDict [(KStr "x", PInt n)])] |}.

(** ** Vocabulary of the further properties *)

(** The [tool_outputs] list of a payload, empty when the payload has
    none. *)
Definition tool_outputs_list (context : pydict) : list pyval :=
  match dict_get (KStr "tool_outputs") context with
  | Some (PList l) => l
  | _ => []
  end.

(** A payload whose [tool_outputs] value, when present, is a list. *)
Definition tool_outputs_is_list (context : pydict) : bool :=
  match dict_get (KStr "tool_outputs") context with
  | Some (PList _) | None => true
  | Some _ => false
  end.

(** A payload shaped as the orchestration code builds them. *)
Definition payload_shaped (context : pydict) : bool :=
  discoveries_is_mapping context && tool_outputs_is_list context.

(** [xs] is what is left of [l] after its first elements are cut. *)
Definition is_suffix {A : Type} (xs l : list A) : Prop :=
  exists dropped, l = dropped ++ xs.

(** [l] goes on from [old]. *)
Definition is_prefix {A : Type} (old l : list A) : Prop :=
  exists added, l = old ++ added.

(** The values a view shows. *)
Definition view_field (name : string) (view : pyval) : option pyval :=
  match view with
  | PDict d => dict_get (KStr name) d
  | _ => None
  end.



(** A conversation of a snapshot from which no [ContextEntry] can be
    built: not a mapping, or a mapping that lacks a field or has a key
    that is no field. *)
Definition record_malformed (conv : pyval) : Prop :=
  match conv with
  | PDict kw =>
      dict_get (KStr "model") kw = None
      \/ dict_get (KStr "timestamp") kw = None
      \/ dict_get (KStr "content") kw = None
      \/ exists k, In k (dict_keys kw)
                   /\ k <> KStr "model" /\ k <> KStr "timestamp" /\ k <> KStr "content"
  | _ => True
  end.

(** A key/value pair written as a two-element list. *)
Definition pair_item (kv : pykey * pyval) : pyval :=
  PList [key_val (fst kv); snd kv].

(** ** The orchestration in [research_assistant.py]

    [analyze_code] stores Claude's analysis and then asks
    [get_context("gpt4")], with the default bound of ten, for the
    context it hands to [_gpt4_improve]. *)
Definition gpt_context (ctx : SharedContext) : result pyval :=
  get_context ctx "gpt4" 10.

(** The first two statements of [_gpt4_improve]:
    [previous_analysis = context.get("previous_analysis", [])] and
    [claude_findings = previous_analysis[0] if previous_analysis else {}].
    A value is false when it is [None], [False], zero or empty;
    indexing a dictionary with [0] looks the key [0] up, and a true
    boolean or a number other than zero cannot be indexed. *)
Definition claude_findings (context : pydict) : result pyval :=
  match dict_get_default context (KStr "previous_analysis") (PList []) with
  | PList (first :: _) => Ok first
  | PStr (String c _) => Ok (PStr (String c EmptyString))
  | PDict (item :: items) =>
      match dict_get (KInt 0) (item :: items) with
      | Some v => Ok v
      | None => Raise KeyError
      end
  | PBool true => Raise TypeError
  | PInt z => if z =? 0 then Ok (PDict []) else Raise TypeError
  | PNone | PBool false | PStr EmptyString | PList [] | PDict [] => Ok (PDict [])
  end.

(** ** [find_duplicates] of [sample.py]

    The items are values of a type on which [==] is [eqb]. *)
Section FindDuplicates.

Variable A : Type.
Variable eqb : A -> A -> bool.

(** The body of the inner loop, with [x = items[i]] and
    [y = items[j]]. *)
Definition note_duplicate (x y : A) (duplicates : list A) : list A :=
  if eqb x y && negb (existsb (eqb x) duplicates)
  then duplicates ++ [x]
  else duplicates.

(** The two loops over [range(len(items))] and
    [range(i + 1, len(items))]; an index of these ranges is never
    out of range. *)
Definition find_duplicates (items : list A) : list A :=
  fold_left
    (fun duplicates i =>
       fold_left
         (fun duplicates j =>
            match nth_error items i, nth_error items j with
            | Some x, Some y => note_duplicate x y duplicates
            | _, _ => duplicates
            end)
         (seq (i + 1) (List.length items - (i + 1))) duplicates)
    (seq 0 (List.length items)) [].

(** The same two loops, walking the list instead of counting. *)
Fixpoint scan_duplicates (items duplicates : list A) : list A :=
  match items with
  | [] => duplicates
  | x :: rest =>
      scan_duplicates rest
        (fold_left (fun dups y => note_duplicate x y dups) rest duplicates)
  end.

End FindDuplicates.

(** ** [DataProcessor] of [sample.py] *)

Record DataProcessor : Type := {
  data : list string;
  processed_count : Z
}.

(** [DataProcessor()] *)
Definition new_processor : DataProcessor :=
  {| data := []; processed_count := 0 |}.

(** [s.split(',')]: the text between the commas, so one piece more
    than there are commas. *)
Fixpoint split_comma (s : string) : list string :=
  match s with
  | EmptyString => [EmptyString]
  | String c rest =>
      if Ascii.eqb c ","%char
      then EmptyString :: split_comma rest
      else match split_comma rest with
           | piece :: pieces => String c piece :: pieces
           | [] => [String c EmptyString]
           end
  end.

Section DataProcessorMethods.

(** [item.strip().upper()], whatever these two string methods
    compute. *)
Variable strip_upper : string -> string.

(** [process_item(item)] *)
Definition process_item (self : DataProcessor) (item : string)
  : DataProcessor * string :=
  let processed := strip_upper item in
  ({| data := data self ++ [processed];
      processed_count := processed_count self + 1 |}, processed).

(** [process_file(filename)]; [file] is what [open] and [f.read()]
    produce: the text of the file, or the exception of [open]. *)
Definition process_file (self : DataProcessor) (file : result string)
  : DataProcessor * result (list string) :=
  match file with
  | Raise e => (self, Raise e)
  | Ok text =>
      let items := split_comma text in
      (fold_left
         (fun self item => fst (process_item (fst (process_item self item)) item))
         items self,
       Ok items)
  end.

End DataProcessorMethods.

(** ** The view, in the words of its description *)

(** The entry was contributed by the producer [P]. *)
Definition produced_by (P : string) (c : ContextEntry) : bool :=
  match model c with
  | PStr m => String.eqb m P
  | _ => false
  end.

(** A key of the payload, or the default when the payload lacks it. *)
Definition payload_field (payload : pydict) (name : string) (default : pyval) : pyval :=
  match dict_get (KStr name) payload with
  | Some v => v
  | None => default
  end.

(** An entry reduced to producer, time stamp, summary, findings and
    suggestions, the last three read from its payload. *)
Definition analysis_record (c : ContextEntry) (payload : pydict) : pyval :=
  PDict [(KStr "model", model c);
         (KStr "timestamp", timestamp c);
         (KStr "summary", payload_field payload "summary" (PStr ""));
         (KStr "findings", payload_field payload "findings" (PList []));
         (KStr "suggestions", payload_field payload "suggestions" (PList []))].

Definition is_analysis_of (c : ContextEntry) (a : pyval) : Prop :=
  exists payload, content c = PDict payload /\ a = analysis_record c payload.


(** ** Sample snapshots and calls *)

(** A snapshot with one conversation whose payload is a number. *)
Definition snapshot_number_payload : pyval :=
  PDict [(KStr "conversations",
          PList [PDict [(KStr "model", PStr "claude");
                        (KStr "timestamp", PStr "T1");
                        (KStr "content", PInt 5)]])].


(** Two appends that carry tool outputs. *)
Definition call_tools (m t : string) (outputs : list pyval) : call :=
  {| call_model := m; call_now := t;
     call_context := [(KStr "summary", PStr "ran tools");
                      (KStr "tool_outputs", PList outputs)] |}.

(** * Properties *)

Unset Implicit Arguments.

(** ** Keys and dictionaries *)

Lemma key_eqb_norm (k1 k2 : pykey) :
  key_eqb k1 k2 = true <-> key_norm k1 = key_norm k2.
Proof.
  unfold key_eqb.
  destruct k1 as [ | [ | ] | a | a], k2 as [ | [ | ] | b | b]; cbv [key_norm];
    split; intro H; try discriminate; try reflexivity.
  all: try (apply Z.eqb_eq in H; now subst).
  all: try (injection H as <-; apply Z.eqb_refl).
  all: try (apply String.eqb_eq in H; now subst).
  all: try (injection H as <-; apply String.eqb_refl).
Qed.

Lemma key_eqb_refl (k : pykey) : key_eqb k k = true.
Proof. now apply key_eqb_norm. Qed.

Lemma key_eqb_sym (k1 k2 : pykey) : key_eqb k1 k2 = key_eqb k2 k1.
Proof.
  destruct (key_eqb k1 k2) eqn:E1, (key_eqb k2 k1) eqn:E2; try reflexivity.
  - apply key_eqb_norm in E1. symmetry in E1. apply key_eqb_norm in E1. congruence.
  - apply key_eqb_norm in E2. symmetry in E2. apply key_eqb_norm in E2. congruence.
Qed.

Lemma key_eqb_trans (k1 k2 k3 : pykey) :
  key_eqb k1 k2 = true -> key_eqb k2 k3 = true -> key_eqb k1 k3 = true.
Proof. rewrite !key_eqb_norm. congruence. Qed.

(** Equal keys look up the same item. *)
Lemma key_eqb_congr (k1 k2 k : pykey) :
  key_eqb k1 k2 = true -> key_eqb k k1 = key_eqb k k2.
Proof.
  intro H.
  destruct (key_eqb k k1) eqn:E1, (key_eqb k k2) eqn:E2; try reflexivity.
  - rewrite (key_eqb_trans _ _ _ E1 H) in E2. discriminate.
  - rewrite key_eqb_sym in H. rewrite (key_eqb_trans _ _ _ E2 H) in E1. discriminate.
Qed.

Lemma key_eqb_str (k : pykey) (s : string) :
  key_eqb k (KStr s) = true <-> k = KStr s.
Proof.
  split.
  - destruct k as [ | [|] | z | t]; cbn; try discriminate.
    intro H. apply String.eqb_eq in H. now subst.
  - intros ->. apply key_eqb_refl.
Qed.

Lemma dict_get_set (k k' : pykey) (v : pyval) (d : pydict) :
  dict_get k (dict_set k' v d) = if key_eqb k' k then Some v else dict_get k d.
Proof.
  induction d as [ | [k0 v0] d IH]; cbn.
  - reflexivity.
  - destruct (key_eqb k0 k') eqn:E0; cbn.
    + rewrite (key_eqb_sym k' k), (key_eqb_sym k0 k), (key_eqb_congr _ _ k E0), (key_eqb_sym k k').
      now destruct (key_eqb k' k).
    + rewrite IH. destruct (key_eqb k0 k) eqn:E1; [ | reflexivity ].
      destruct (key_eqb k' k) eqn:E2; [ | reflexivity ].
      rewrite key_eqb_sym in E2.
      rewrite (key_eqb_trans _ _ _ E1 E2) in E0. discriminate.
Qed.

Lemma dict_get_app (k : pykey) (d1 d2 : pydict) :
  dict_get k (d1 ++ d2) =
  match dict_get k d1 with Some v => Some v | None => dict_get k d2 end.
Proof.
  induction d1 as [ | [k0 v0] d1 IH]; cbn; [ reflexivity | ].
  now destruct (key_eqb k0 k).
Qed.

Lemma dict_get_merge (k : pykey) (other d : pydict) :
  dict_get k (dict_merge d other) =
  match last_binding k other with Some v => Some v | None => dict_get k d end.
Proof.
  unfold dict_merge, last_binding. revert d.
  induction other as [ | [k0 v0] other IH]; intro d; cbn; [ reflexivity | ].
  rewrite IH, dict_get_app, dict_get_set. cbn.
  destruct (dict_get k (rev other)); [ reflexivity | ].
  now destruct (key_eqb k0 k).
Qed.

Lemma dict_merge_app (d o1 o2 : pydict) :
  dict_merge d (o1 ++ o2) = dict_merge (dict_merge d o1) o2.
Proof. unfold dict_merge. apply fold_left_app. Qed.

Lemma existsb_keys_set (k k' : pykey) (v : pyval) (d : pydict) :
  existsb (key_eqb k) (dict_keys (dict_set k' v d)) =
  existsb (key_eqb k) (dict_keys d) || key_eqb k k'.
Proof.
  unfold dict_keys.
  induction d as [ | [k0 v0] d IH]; cbn.
  - now rewrite orb_false_r.
  - destruct (key_eqb k0 k') eqn:E0; cbn.
    + rewrite <- (key_eqb_congr _ _ k E0).
      destruct (key_eqb k k0); cbn; [ reflexivity | now rewrite orb_false_r ].
    + rewrite IH. now rewrite orb_assoc.
Qed.

Lemma keys_distinct_set (k : pykey) (v : pyval) (d : pydict) :
  keys_distinct (dict_keys d) = true ->
  keys_distinct (dict_keys (dict_set k v d)) = true.
Proof.
  pose proof (existsb_keys_set) as Hex. unfold dict_keys in *.
  induction d as [ | [k0 v0] d IH]; cbn; [ reflexivity | ].
  intro H. apply andb_true_iff in H as [Hk Hd].
  destruct (key_eqb k0 k) eqn:E0; cbn.
  - now rewrite Hk, Hd.
  - rewrite Hex, E0, orb_false_r, Hk. cbn. now apply IH.
Qed.

Lemma keys_distinct_merge (other d : pydict) :
  keys_distinct (dict_keys d) = true ->
  keys_distinct (dict_keys (dict_merge d other)) = true.
Proof.
  unfold dict_merge. revert d.
  induction other as [ | [k v] other IH]; intros d H; cbn; [ assumption | ].
  apply IH. now apply keys_distinct_set.
Qed.

(** ** [store_context] *)

Ltac break_match :=
  match goal with
  | |- context [match ?x with _ => _ end] => destruct x eqn:?
  | |- context [let (_, _) := ?x in _] => destruct x eqn:?
  end.

Lemma merge_discoveries_conversations (ctx : SharedContext) (v : pyval) :
  conversations (fst (merge_discoveries ctx v)) = conversations ctx.
Proof. unfold merge_discoveries. repeat break_match; reflexivity. Qed.

Lemma merge_discoveries_tool_outputs (ctx : SharedContext) (v : pyval) :
  tool_outputs (fst (merge_discoveries ctx v)) = tool_outputs ctx.
Proof. unfold merge_discoveries. repeat break_match; reflexivity. Qed.

Lemma extend_tool_outputs_conversations (ctx : SharedContext) (v : pyval) :
  conversations (fst (extend_tool_outputs ctx v)) = conversations ctx.
Proof. unfold extend_tool_outputs. repeat break_match; reflexivity. Qed.

Lemma extend_tool_outputs_discovered_info (ctx : SharedContext) (v : pyval) :
  discovered_info (fst (extend_tool_outputs ctx v)) = discovered_info ctx.
Proof. unfold extend_tool_outputs. repeat break_match; reflexivity. Qed.

(** The entry is in the log whatever happens afterwards. *)
Lemma store_context_conversations (ctx : SharedContext) (m t : string) (c : pydict) :
  conversations (fst (store_context ctx m t c)) =
  conversations ctx ++ [entry_of {| call_model := m; call_now := t; call_context := c |}].
Proof.
  unfold store_context, entry_of. cbn [call_model call_now call_context].
  destruct (dict_get (KStr "discoveries") c) as [dv | ].
  - match goal with
    | |- context [merge_discoveries ?s dv] =>
        pose proof (merge_discoveries_conversations s dv) as Hm;
        destruct (merge_discoveries s dv) as [ctx2 [e | ]]
    end; cbn [fst] in *; [ exact Hm | ].
    destruct (dict_get (KStr "tool_outputs") c) as [tv | ]; [ | exact Hm ].
    rewrite extend_tool_outputs_conversations. exact Hm.
  - destruct (dict_get (KStr "tool_outputs") c) as [tv | ]; [ | reflexivity ].
    now rewrite extend_tool_outputs_conversations.
Qed.

Lemma store_all_conversations (calls : list call) (ctx : SharedContext) :
  conversations (store_all ctx calls) = conversations ctx ++ map entry_of calls.
Proof.
  unfold store_all. revert ctx.
  induction calls as [ | c calls IH]; intro ctx; cbn [fold_left map].
  - now rewrite app_nil_r.
  - rewrite IH, store_context_conversations.
    destruct c. now rewrite <- app_assoc.
Qed.

(** C8 (append monotonicity).  After any sequence of [store_context]
    calls on a new server the log is the list of the entries the calls
    built, in call order: it has as many entries as there were calls
    and its i-th entry is the one of the i-th call.  The time stamps
    [call_now] are arbitrary, so they have no say in the order; nor
    does it matter whether a call raised. *)
Theorem store_all_log_is_call_order (calls : list call) :
  conversations (store_all empty_context calls) = map entry_of calls
  /\ List.length (conversations (store_all empty_context calls)) = List.length calls
  /\ forall (i : nat) (c : call),
       nth_error calls i = Some c ->
       nth_error (conversations (store_all empty_context calls)) i = Some (entry_of c).
Proof.
  assert (H : conversations (store_all empty_context calls) = map entry_of calls)
    by (rewrite store_all_conversations; reflexivity).
  rewrite H. split; [ reflexivity | split ].
  - apply length_map.
  - intros i c Hi. now apply map_nth_error.
Qed.

Lemma merge_discoveries_dict (ctx : SharedContext) (v : pyval) (d : pydict) :
  discovered_info ctx = PDict d ->
  merge_discoveries ctx v =
  ({| conversations := conversations ctx;
      tool_outputs := tool_outputs ctx;
      discovered_info := PDict (fst (dict_update d v)) |}, snd (dict_update d v)).
Proof.
  intro Ed. unfold merge_discoveries. rewrite Ed.
  now destruct (dict_update d v).
Qed.

Lemma extend_tool_outputs_list (ctx : SharedContext) (v : pyval) (l : list pyval) :
  tool_outputs ctx = PList l ->
  extend_tool_outputs ctx v =
  match iter v with
  | Ok xs => ({| conversations := conversations ctx;
                 tool_outputs := PList (l ++ xs);
                 discovered_info := discovered_info ctx |}, None)
  | Raise e => (ctx, Some e)
  end.
Proof. intro El. unfold extend_tool_outputs. now rewrite El. Qed.

(** A store built by [store_context] alone obeys the annotations of
    the data classes. *)
Lemma store_context_containers (ctx : SharedContext) (m t : string) (c : pydict)
    (l : list pyval) (d : pydict) :
  tool_outputs ctx = PList l ->
  discovered_info ctx = PDict d ->
  exists l' d',
    tool_outputs (fst (store_context ctx m t c)) = PList l'
    /\ discovered_info (fst (store_context ctx m t c)) = PDict d'.
Proof.
  intros El Ed. unfold store_context.
  destruct (dict_get (KStr "discoveries") c) as [dv | ].
  - rewrite (merge_discoveries_dict _ dv d) by exact Ed.
    destruct (dict_update d dv) as [d' [e | ]]; cbn [fst snd]; [ cbn; eauto | ].
    destruct (dict_get (KStr "tool_outputs") c) as [tv | ]; [ | cbn; eauto ].
    rewrite (extend_tool_outputs_list _ tv l) by exact El.
    destruct (iter tv); cbn; eauto.
  - destruct (dict_get (KStr "tool_outputs") c) as [tv | ]; [ | cbn; eauto ].
    rewrite (extend_tool_outputs_list _ tv l) by exact El.
    destruct (iter tv); cbn; eauto.
Qed.

Lemma store_context_typed (ctx : SharedContext) (m t : string) (c : pydict) :
  store_typed ctx = true -> store_typed (fst (store_context ctx m t c)) = true.
Proof.
  unfold store_typed. intro H.
  apply andb_true_iff in H as [H Hd]. apply andb_true_iff in H as [Hc Ht].
  destruct (tool_outputs ctx) as [ | | | | l | ] eqn:El; try discriminate.
  destruct (discovered_info ctx) as [ | | | | | d ] eqn:Ed; try discriminate.
  destruct (store_context_containers ctx m t c l d El Ed) as (l' & d' & -> & ->).
  rewrite store_context_conversations, forallb_app, Hc. reflexivity.
Qed.

Lemma store_all_typed (calls : list call) (ctx : SharedContext) :
  store_typed ctx = true -> store_typed (store_all ctx calls) = true.
Proof.
  unfold store_all. revert ctx.
  induction calls as [ | c calls IH]; intros ctx H; cbn [fold_left]; [ assumption | ].
  apply IH. now apply store_context_typed.
Qed.

(** ** Slices *)

Lemma slice_from_suffix {A : Type} (start : Z) (l : list A) :
  l = firstn (slice_start start (List.length l)) l ++ slice_from start l.
Proof. unfold slice_from. symmetry. apply firstn_skipn. Qed.

Lemma slice_from_zero {A : Type} (l : list A) : slice_from (- 0) l = l.
Proof. unfold slice_from, slice_start. cbn. now destruct l. Qed.

(** [l[-k:]] with [k >= 1] keeps [min k (len l)] elements. *)
Lemma slice_from_tail_length {A : Type} (k : Z) (l : list A) :
  1 <= k ->
  Z.of_nat (List.length (slice_from (- k) l)) = Z.min k (Z.of_nat (List.length l)).
Proof.
  intro Hk. unfold slice_from, slice_start. rewrite length_skipn.
  destruct (Z.ltb_spec (- k) 0); lia.
Qed.

Lemma slice_from_Forall {A : Type} (P : A -> Prop) (start : Z) (l : list A) :
  Forall P l -> Forall P (slice_from start l).
Proof.
  intro H. rewrite (slice_from_suffix start l) in H.
  now apply Forall_app in H.
Qed.

(** ** [get_context] *)

Lemma mapM_total {A B : Type} (f : A -> result B) (l : list A) :
  Forall (fun a => exists b, f a = Ok b) l -> exists bs, mapM f l = Ok bs.
Proof.
  induction 1 as [ | a l [b Hb] _ [bs Hbs]]; cbn.
  - now exists [].
  - rewrite Hb. cbn. rewrite Hbs. cbn. now exists (b :: bs).
Qed.

Lemma mapM_Forall2 {A B : Type} (f : A -> result B) (l : list A) (bs : list B) :
  mapM f l = Ok bs -> Forall2 (fun a b => f a = Ok b) l bs.
Proof.
  revert bs. induction l as [ | a l IH]; cbn; intros bs H.
  - injection H as <-. constructor.
  - destruct (f a) as [b | e] eqn:Ea; cbn in H; [ | discriminate ].
    destruct (mapM f l) as [bs' | e]; cbn in H; [ | discriminate ].
    injection H as <-. constructor; [ assumption | now apply IH ].
Qed.

Lemma format_conv_typed (c : ContextEntry) :
  entry_typed c = true -> exists a, format_conv c = Ok a.
Proof.
  unfold entry_typed, format_conv.
  destruct (model c), (timestamp c), (content c); try discriminate. eauto.
Qed.

Lemma format_conv_model (c : ContextEntry) (a : pyval) :
  format_conv c = Ok a -> analysis_model a = Some (model c).
Proof.
  unfold format_conv. destruct (content c); try discriminate.
  intro H. injection H as <-. reflexivity.
Qed.

Lemma model_differs_neq (P : string) (c : ContextEntry) :
  model_differs P c = true <-> model c <> PStr P.
Proof.
  unfold model_differs. destruct (model c) as [ | | | m | | ];
    try (split; [ discriminate | reflexivity ]).
  destruct (String.eqb_spec m P) as [-> | Hne]; cbn.
  - split; [ discriminate | congruence ].
  - split; [ congruence | reflexivity ].
Qed.

Lemma other_conversations_differ (ctx : SharedContext) (P : string) (k : Z) :
  Forall (fun c => model c <> PStr P) (other_conversations ctx P k).
Proof.
  unfold other_conversations. apply slice_from_Forall.
  apply Forall_forall. intros c Hc. apply filter_In in Hc as [_ Hc].
  now apply model_differs_neq.
Qed.

Lemma other_conversations_typed (ctx : SharedContext) (P : string) (k : Z) :
  store_typed ctx = true ->
  Forall (fun c => exists a, format_conv c = Ok a) (other_conversations ctx P k).
Proof.
  unfold store_typed, other_conversations. intro H.
  apply andb_true_iff in H as [H _]. apply andb_true_iff in H as [H _].
  apply slice_from_Forall. apply Forall_forall. intros c Hc.
  apply filter_In in Hc as [Hc _]. apply format_conv_typed.
  rewrite forallb_forall in H. now apply H.
Qed.

Lemma format_conv_keeps_models (P : string) (cs : list ContextEntry) (pa : list pyval) :
  Forall2 (fun c a => format_conv c = Ok a) cs pa ->
  Forall (fun c => model c <> PStr P) cs ->
  Forall (fun a => analysis_model a <> Some (PStr P)) pa.
Proof.
  induction 1 as [ | c a cs pa Hc _ IH]; intro Hd; constructor.
  - apply Forall_inv in Hd. rewrite (format_conv_model _ _ Hc). congruence.
  - apply IH. now apply Forall_inv_tail in Hd.
Qed.

(** What a successful [get_context] returned. *)
Lemma get_context_inv (ctx : SharedContext) (P : string) (k : Z) (view : pyval) :
  get_context ctx P k = Ok view ->
  exists pa kf rto,
    view = relevant_context pa kf rto
    /\ mapM format_conv (other_conversations ctx P k) = Ok pa
    /\ dict_ctor (discovered_info ctx) = Ok kf
    /\ getslice_from (-10) (tool_outputs ctx) = Ok rto.
Proof.
  unfold get_context, _format_previous_analysis.
  destruct (mapM format_conv (other_conversations ctx P k)) as [pa | ]; cbn; [ | discriminate ].
  destruct (dict_ctor (discovered_info ctx)) as [kf | ]; cbn; [ | discriminate ].
  destruct (getslice_from (-10) (tool_outputs ctx)) as [rto | ]; cbn; [ | discriminate ].
  intro H. injection H as <-. exists pa, kf, rto. auto.
Qed.

(** On a store that obeys the annotations [get_context] returns. *)
Lemma get_context_typed (ctx : SharedContext) (P : string) (k : Z) :
  store_typed ctx = true ->
  exists pa d l,
    discovered_info ctx = PDict d
    /\ tool_outputs ctx = PList l
    /\ mapM format_conv (other_conversations ctx P k) = Ok pa
    /\ get_context ctx P k = Ok (relevant_context pa d (PList (slice_from (-10) l))).
Proof.
  intro Ht.
  destruct (mapM_total format_conv _ (other_conversations_typed ctx P k Ht)) as [pa Hpa].
  unfold store_typed in Ht.
  apply andb_true_iff in Ht as [Ht Hd]. apply andb_true_iff in Ht as [_ Ht].
  destruct (tool_outputs ctx) as [ | | | | l | ] eqn:El; try discriminate.
  destruct (discovered_info ctx) as [ | | | | | d ] eqn:Ed; try discriminate.
  exists pa, d, l. repeat split; try assumption.
  unfold get_context, _format_previous_analysis. rewrite Hpa, El, Ed. reflexivity.
Qed.

(** C2, at the failing input.  With [max_entries = 0] the slice
    [[-0:]] is the whole filtered list: on the store of the example
    scenario [get_context("gpt4", 0)] returns Claude's entry in
    [previous_analysis], not the empty sequence. *)
Theorem get_context_zero_keeps_entries :
  get_context scenario_store "gpt4" 0 =
  Ok (relevant_context [claude_analysis] [(KStr "lang", PStr "py")] (PList [])).
Proof. reflexivity. Qed.

(** With [max_entries = 0] nothing is cut off, and a negative
    [max_entries] cuts at the front. *)
Lemma other_conversations_zero (ctx : SharedContext) (P : string) :
  other_conversations ctx P 0 = filter (model_differs P) (conversations ctx).
Proof. unfold other_conversations. apply slice_from_zero. Qed.

(** The filter of [get_context] keeps the entries that the consumer
    did not produce, and the formatter reduces an entry to its
    analysis record. *)
Lemma filter_not_produced (P : string) (convs : list ContextEntry) :
  filter (model_differs P) convs = filter (fun c => negb (produced_by P c)) convs.
Proof.
  apply filter_ext. intro c. unfold model_differs, produced_by.
  now destruct (model c).
Qed.

Lemma format_conv_record (c : ContextEntry) (a : pyval) :
  format_conv c = Ok a -> is_analysis_of c a.
Proof.
  unfold format_conv, is_analysis_of. destruct (content c) as [ | | | | | payload];
    try discriminate.
  intro H. injection H as <-. exists payload. split; reflexivity.
Qed.

Lemma format_records (cs : list ContextEntry) (pa : list pyval) :
  mapM format_conv cs = Ok pa -> Forall2 is_analysis_of cs pa.
Proof.
  intro H. apply mapM_Forall2 in H.
  induction H as [ | c a cs pa Hc _ IH]; constructor;
    [ now apply format_conv_record | exact IH ].
Qed.

(** What [previous_analysis] holds in a view that was returned. *)
Lemma get_context_previous_analysis (ctx : SharedContext) (P : string) (k : Z)
    (view : pyval) :
  get_context ctx P k = Ok view ->
  exists pa,
    view_field "previous_analysis" view = Some (PList pa)
    /\ Forall2 is_analysis_of
         (slice_from (- k) (filter (fun c => negb (produced_by P c)) (conversations ctx)))
         pa.
Proof.
  intro H. apply get_context_inv in H as (pa & kf & rto & -> & Hpa & _ & _).
  exists pa. split; [ reflexivity | ].
  apply format_records in Hpa. unfold other_conversations in Hpa.
  now rewrite filter_not_produced in Hpa.
Qed.

Lemma get_context_returns (ctx : SharedContext) (P : string) (k : Z) :
  store_typed ctx = true -> exists view, get_context ctx P k = Ok view.
Proof.
  intro Ht. destruct (get_context_typed ctx P k Ht) as (pa & d & l & _ & _ & _ & H).
  eauto.
Qed.

(** C3, as stated, fails: [import_context] takes a snapshot whose one
    conversation has the number [5] as its payload, and on the store
    it leaves [get_context("gpt4", 1)] raises [AttributeError] on that
    payload: there is no view, hence no [previous_analysis] of length
    one. *)
Lemma get_context_raises_on_number_payload :
  snd (import_context empty_context (Ok snapshot_number_payload)) = None
  /\ get_context (fst (import_context empty_context (Ok snapshot_number_payload))) "gpt4" 1
     = Raise AttributeError
  /\ ~ exists view,
         get_context (fst (import_context empty_context (Ok snapshot_number_payload)))
           "gpt4" 1 = Ok view.
Proof.
  split; [ reflexivity | split; [ reflexivity | ] ].
  intros [view H]. vm_compute in H. discriminate.
Qed.

(** C3, amended (bounded view).  For every store, every consumer [P]
    and every bound [k >= 1]: whenever [get_context] returns a view,
    its [previous_analysis] has [min k n] elements, where [n] is the
    number of log entries not produced by [P], and these are the
    analysis records, one by one and in log order, of the last
    [min k n] such entries, the entries not produced by [P] being
    [dropped ++ kept]: the filter comes first, then the last [k] are
    taken.  [get_context] does return a view on every store that obeys
    the annotations of its data classes, as every store built by
    [store_context] alone does. *)
Theorem get_context_bounded_view (ctx : SharedContext) (P : string) (k : Z) :
  1 <= k ->
  (forall view,
     get_context ctx P k = Ok view ->
     exists pa dropped kept,
       view_field "previous_analysis" view = Some (PList pa)
       /\ filter (fun c => negb (produced_by P c)) (conversations ctx) = dropped ++ kept
       /\ Z.of_nat (List.length kept) =
          Z.min k (Z.of_nat (List.length
                     (filter (fun c => negb (produced_by P c)) (conversations ctx))))
       /\ Z.of_nat (List.length pa) =
          Z.min k (Z.of_nat (List.length
                     (filter (fun c => negb (produced_by P c)) (conversations ctx))))
       /\ Forall2 is_analysis_of kept pa)
  /\ (store_typed ctx = true -> exists view, get_context ctx P k = Ok view).
Proof.
  intro Hk. split; [ | apply get_context_returns ].
  intros view Hview.
  destruct (get_context_previous_analysis ctx P k view Hview) as (pa & Hpa & H2).
  set (others := filter (fun c => negb (produced_by P c)) (conversations ctx)) in *.
  exists pa, (firstn (slice_start (- k) (List.length others)) others),
    (slice_from (- k) others).
  split; [ exact Hpa | split; [ apply slice_from_suffix | split; [ | split ] ] ].
  - now apply slice_from_tail_length.
  - rewrite <- (Forall2_length H2). now apply slice_from_tail_length.
  - exact H2.
Qed.

Lemma get_context_bounded_view_witness :
  1 <= 1
  /\ get_context scenario_store "gemini" 1
     = Ok (relevant_context
             [analysis_record (entry_of call_gpt4) (call_context call_gpt4)]
             [(KStr "lang", PStr "py")] (PList []))
  /\ exists pa dropped kept,
       view_field "previous_analysis"
         (relevant_context
            [analysis_record (entry_of call_gpt4) (call_context call_gpt4)]
            [(KStr "lang", PStr "py")] (PList []))
       = Some (PList pa)
       /\ filter (fun c => negb (produced_by "gemini" c)) (conversations scenario_store)
          = dropped ++ kept
       /\ Z.of_nat (List.length kept) =
          Z.min 1 (Z.of_nat (List.length
                     (filter (fun c => negb (produced_by "gemini" c))
                        (conversations scenario_store))))
       /\ Z.of_nat (List.length pa) =
          Z.min 1 (Z.of_nat (List.length
                     (filter (fun c => negb (produced_by "gemini" c))
                        (conversations scenario_store))))
       /\ Forall2 is_analysis_of kept pa.
Proof.
  split; [ lia | split; [ reflexivity | ] ].
  destruct (get_context_bounded_view scenario_store "gemini" 1) as [H _]; [ lia | ].
  apply H. reflexivity.
Defined.

(** C7 (self-exclusion).  Whatever the store, the consumer [P] and
    the bound [k]: every view [get_context] returns has no element in
    [previous_analysis] whose producer is the string [P]; and on a
    store that obeys the annotations of its data classes [get_context]
    does return a view. *)
Theorem get_context_self_exclusion (ctx : SharedContext) (P : string) (k : Z) :
  (store_typed ctx = true -> exists view, get_context ctx P k = Ok view)
  /\ forall pa kf rto,
       get_context ctx P k = Ok (relevant_context pa kf rto) ->
       Forall (fun a => analysis_model a <> Some (PStr P)) pa.
Proof.
  split.
  - intro Ht. destruct (get_context_typed ctx P k Ht) as (pa & d & l & _ & _ & _ & H).
    eauto.
  - intros pa kf rto H.
    apply get_context_inv in H as (pa' & kf' & rto' & Heq & Hpa & _ & _).
    injection Heq as -> -> ->.
    apply (format_conv_keeps_models P (other_conversations ctx P k)).
    + now apply mapM_Forall2.
    + apply other_conversations_differ.
Qed.

Lemma get_context_self_exclusion_witness :
  store_typed scenario_store = true
  /\ get_context scenario_store "gpt4" 10 =
     Ok (relevant_context [claude_analysis] [(KStr "lang", PStr "py")] (PList []))
  /\ (exists view, get_context scenario_store "gpt4" 10 = Ok view)
  /\ Forall (fun a => analysis_model a <> Some (PStr "gpt4")) [claude_analysis].
Proof.
  split; [ reflexivity | split; [ reflexivity | ] ].
  destruct (get_context_self_exclusion scenario_store "gpt4" 10) as [Hret Hex].
  split.
  - apply Hret. reflexivity.
  - apply (Hex [claude_analysis] [(KStr "lang", PStr "py")] (PList [])). reflexivity.
Defined.

(** ** [import_context] *)

(** C1, as stated, fails: the document [{}] lacks the three fields,
    yet importing it over the store of the example scenario raises
    nothing and does not leave that store in place. *)
Lemma import_context_empty_document_no_error :
  fields_absent [] = true
  /\ ~ exists e, import_context scenario_store (Ok (PDict [])) = (scenario_store, Some e).
Proof.
  split; [ reflexivity | ].
  intros [e H]. vm_compute in H. discriminate.
Qed.

(** C1, amended.  A document that is a mapping without
    [conversations], [tool_outputs] and [discovered_info] is imported
    without an error, each absent field taking its default, so the
    store becomes the empty store whatever it held; and whenever
    [import_context] does raise (unreadable file, document that is not
    a mapping, conversation that is not a well-formed record), the
    store after the call is the store before it. *)
Theorem import_context_defaults_and_all_or_nothing (ctx : SharedContext) :
  (forall d, fields_absent d = true ->
             import_context ctx (Ok (PDict d)) = (empty_context, None))
  /\ (forall file ctx' e, import_context ctx file = (ctx', Some e) -> ctx' = ctx).
Proof.
  split.
  - intros d H. unfold fields_absent, dict_mem in H.
    apply andb_true_iff in H as [H Hd]. apply andb_true_iff in H as [Hc Ht].
    unfold import_context, rebuild_context, dict_get_default.
    destruct (dict_get (KStr "conversations") d); [ discriminate | ].
    destruct (dict_get (KStr "tool_outputs") d); [ discriminate | ].
    destruct (dict_get (KStr "discovered_info") d); [ discriminate | ].
    reflexivity.
  - intros file ctx' e. unfold import_context.
    destruct file as [data | e0].
    + destruct (rebuild_context data); intro H; [ discriminate | ].
      now injection H as <- _.
    + intro H. now injection H as <- _.
Qed.

Lemma import_context_defaults_and_all_or_nothing_witness :
  fields_absent [(KStr "version", PInt 1)] = true
  /\ import_context scenario_store (Ok (PDict [(KStr "version", PInt 1)]))
     = (empty_context, None)
  /\ import_context scenario_store (Ok (PList [])) = (scenario_store, Some AttributeError)
  /\ scenario_store = scenario_store.
Proof.
  destruct (import_context_defaults_and_all_or_nothing scenario_store) as [Habs Hfail].
  split; [ reflexivity | split; [ | split; [ reflexivity | ] ] ].
  - apply Habs. reflexivity.
  - apply (Hfail (Ok (PList [])) scenario_store AttributeError). reflexivity.
Defined.

(** ** The error path of [store_context] *)

Lemma dict_update_not_iterable (d : pydict) (v : pyval) :
  not_iterable v = true -> dict_update d v = (d, Some TypeError).
Proof. destruct v; try discriminate; reflexivity. Qed.

Lemma merge_discoveries_not_iterable (ctx : SharedContext) (v : pyval) :
  not_iterable v = true -> exists e, snd (merge_discoveries ctx v) = Some e.
Proof.
  intro H. unfold merge_discoveries.
  destruct (discovered_info ctx); try (eexists; reflexivity).
  rewrite (dict_update_not_iterable _ _ H). eexists; reflexivity.
Qed.

Lemma extend_tool_outputs_not_iterable (ctx : SharedContext) (v : pyval) :
  not_iterable v = true -> exists e, snd (extend_tool_outputs ctx v) = Some e.
Proof.
  intro H. unfold extend_tool_outputs.
  destruct (tool_outputs ctx); try (eexists; reflexivity).
  destruct v; try discriminate; eexists; reflexivity.
Qed.

Lemma store_context_raises (ctx : SharedContext) (m t : string) (c : pydict) :
  (exists v, dict_get (KStr "discoveries") c = Some v /\ not_iterable v = true)
  \/ (exists v, dict_get (KStr "tool_outputs") c = Some v /\ not_iterable v = true) ->
  exists e, snd (store_context ctx m t c) = Some e.
Proof.
  unfold store_context. intros [(v & Hv & Hn) | (v & Hv & Hn)].
  - rewrite Hv.
    match goal with
    | |- context [merge_discoveries ?s v] =>
        destruct (merge_discoveries_not_iterable s v Hn) as [e He];
        destruct (merge_discoveries s v) as [ctx2 o]
    end.
    cbn in He. subst o. now exists e.
  - rewrite Hv.
    match goal with
    | |- context [let (_, _) := ?x in _] => destruct x as [ctx2 [e | ]]
    end; [ now exists e | ].
    apply extend_tool_outputs_not_iterable, Hn.
Qed.

(** C9, as stated, fails: a [discoveries] value that is a list of
    pairs is not a mapping, and [dict.update] takes it without
    raising. *)
Lemma store_context_pair_list_no_error :
  discoveries_is_mapping (call_context call_pair_list) = false
  /\ ~ exists e,
       snd (store_context empty_context (call_model call_pair_list)
              (call_now call_pair_list) (call_context call_pair_list)) = Some e.
Proof.
  split; [ reflexivity | ].
  intros [e H]. vm_compute in H. discriminate.
Qed.

(** C9, amended.  When the payload's [discoveries] value, or its
    [tool_outputs] value, is present and is not iterable ([None], a
    boolean, a number), [store_context] raises, and it does so after
    the new entry went into the log: the store after the failed call
    has the old log followed by the new entry, so it differs from the
    store before the call. *)
Theorem store_context_not_all_or_nothing (ctx : SharedContext) (m t : string)
    (c : pydict) :
  (exists v, dict_get (KStr "discoveries") c = Some v /\ not_iterable v = true)
  \/ (exists v, dict_get (KStr "tool_outputs") c = Some v /\ not_iterable v = true) ->
  exists e,
    snd (store_context ctx m t c) = Some e
    /\ conversations (fst (store_context ctx m t c)) =
       conversations ctx
       ++ [{| model := PStr m; timestamp := PStr t; content := PDict c |}]
    /\ fst (store_context ctx m t c) <> ctx.
Proof.
  intro H. destruct (store_context_raises ctx m t c H) as [e He].
  pose proof (store_context_conversations ctx m t c) as Hlog.
  exists e. split; [ exact He | split; [ exact Hlog | ] ].
  intro Heq. rewrite Heq in Hlog.
  apply (f_equal (@List.length _)) in Hlog. rewrite length_app in Hlog.
  cbn in Hlog. lia.
Qed.

Lemma store_context_not_all_or_nothing_witness :
  dict_get (KStr "discoveries") [(KStr "discoveries", PInt 5)] = Some (PInt 5)
  /\ not_iterable (PInt 5) = true
  /\ exists e,
       snd (store_context scenario_store "gemini" "T3" [(KStr "discoveries", PInt 5)])
       = Some e
       /\ conversations
            (fst (store_context scenario_store "gemini" "T3"
                    [(KStr "discoveries", PInt 5)])) =
          conversations scenario_store
          ++ [{| model := PStr "gemini"; timestamp := PStr "T3";
                 content := PDict [(KStr "discoveries", PInt 5)] |}]
       /\ fst (store_context scenario_store "gemini" "T3" [(KStr "discoveries", PInt 5)])
          <> scenario_store.
Proof.
  split; [ reflexivity | split; [ reflexivity | ] ].
  apply (store_context_not_all_or_nothing scenario_store "gemini" "T3"
           [(KStr "discoveries", PInt 5)]).
  left. exists (PInt 5). split; reflexivity.
Defined.

(** ** The discovery map *)

Lemma store_context_discovered_info (ctx : SharedContext) (m t : string) (c : pydict)
    (d : pydict) :
  discovered_info ctx = PDict d ->
  discoveries_is_mapping c = true ->
  discovered_info (fst (store_context ctx m t c)) =
  PDict (dict_merge d (discoveries_submap c)).
Proof.
  intros Ed Hm. unfold store_context, discoveries_is_mapping, discoveries_submap in *.
  destruct (dict_get (KStr "discoveries") c) as [[ | | | | | o] | ]; try discriminate.
  - rewrite (merge_discoveries_dict _ _ d) by exact Ed. cbn [dict_update fst snd].
    destruct (dict_get (KStr "tool_outputs") c) as [tv | ]; [ | reflexivity ].
    now rewrite extend_tool_outputs_discovered_info.
  - destruct (dict_get (KStr "tool_outputs") c) as [tv | ]; [ | exact Ed ].
    rewrite extend_tool_outputs_discovered_info. exact Ed.
Qed.

Lemma store_all_discovered_info (calls : list call) (ctx : SharedContext) (d : pydict) :
  discovered_info ctx = PDict d ->
  forallb (fun c => discoveries_is_mapping (call_context c)) calls = true ->
  discovered_info (store_all ctx calls) =
  PDict (dict_merge d (List.concat (map (fun c => discoveries_submap (call_context c)) calls))).
Proof.
  unfold store_all. revert ctx d.
  induction calls as [ | c calls IH]; intros ctx d Ed Hm; cbn [fold_left map List.concat].
  - exact Ed.
  - cbn [forallb] in Hm. apply andb_true_iff in Hm as [Hc Hm].
    rewrite dict_merge_app.
    apply IH; [ | exact Hm ].
    now apply store_context_discovered_info.
Qed.

(** C6, as stated, fails: after one append whose [discoveries] value
    is the list of pairs [[["x", 1]]] no payload has contributed a
    [discoveries] sub-map, so the union is empty, yet the discovery
    map binds ["x"]. *)
Lemma discovery_map_takes_pair_lists :
  discovered_info (store_all empty_context [call_pair_list]) = PDict [(KStr "x", PInt 1)]
  /\ union_lookup (map (fun c => discoveries_submap (call_context c)) [call_pair_list])
       (KStr "x") = None
  /\ ~ forall k,
         dict_get k [(KStr "x", PInt 1)] =
         union_lookup (map (fun c => discoveries_submap (call_context c)) [call_pair_list]) k.
Proof.
  split; [ reflexivity | split; [ reflexivity | ] ].
  intro H. specialize (H (KStr "x")). vm_compute in H. discriminate.
Qed.

(** C6, amended.  After any sequence of [store_context] calls on a
    new server in which every payload's [discoveries] value, when
    present, is a mapping, the discovery map is a dictionary with
    pairwise different keys which, at every key, holds what the
    left-to-right union of the payloads' [discoveries] sub-maps holds
    there, the later binding winning.  In particular, after payloads
    with discoveries [{x: 1}] and then [{x: 2}] every view has
    [key_findings[x] = 2]. *)
Theorem discovery_map_is_union (calls : list call) :
  (forallb (fun c => discoveries_is_mapping (call_context c)) calls = true ->
   exists d,
     discovered_info (store_all empty_context calls) = PDict d
     /\ keys_distinct (dict_keys d) = true
     /\ forall k,
          dict_get k d =
          union_lookup (map (fun c => discoveries_submap (call_context c)) calls) k)
  /\ forall (m1 t1 m2 t2 P : string) (k : Z),
       exists pa kf rto,
         get_context (store_all empty_context [call_x m1 t1 1; call_x m2 t2 2]) P k
         = Ok (relevant_context pa kf rto)
         /\ dict_get (KStr "x") kf = Some (PInt 2).
Proof.
  split.
  - intro Hm.
    pose proof (store_all_discovered_info calls empty_context [] eq_refl Hm) as Hd.
    eexists. split; [ exact Hd | split ].
    + now apply keys_distinct_merge.
    + intro k. rewrite dict_get_merge. unfold union_lookup.
      now destruct (last_binding k _).
  - intros m1 t1 m2 t2 P k.
    set (calls2 := [call_x m1 t1 1; call_x m2 t2 2]).
    assert (Ht : store_typed (store_all empty_context calls2) = true)
      by (now apply store_all_typed).
    destruct (get_context_typed _ P k Ht) as (pa & d & l & Ed & _ & _ & Hget).
    exists pa, d, (PList (slice_from (-10) l)). split; [ exact Hget | ].
    assert (Hd : discovered_info (store_all empty_context calls2)
                 = PDict [(KStr "x", PInt 2)]) by reflexivity.
    rewrite Hd in Ed. injection Ed as <-. reflexivity.
Qed.

Lemma discovery_map_is_union_witness :
  forallb (fun c => discoveries_is_mapping (call_context c)) [call_claude; call_gpt4] = true
  /\ exists d,
       discovered_info (store_all empty_context [call_claude; call_gpt4]) = PDict d
       /\ keys_distinct (dict_keys d) = true
       /\ forall k,
            dict_get k d =
            union_lookup
              (map (fun c => discoveries_submap (call_context c)) [call_claude; call_gpt4]) k.
Proof.
  split; [ reflexivity | ].
  destruct (discovery_map_is_union [call_claude; call_gpt4]) as [H _].
  apply H. reflexivity.
Defined.

(** ** JSON documents *)


















(** ** [get_summary] *)

Lemma existsb_set_add (x k : pykey) (s : list pykey) :
  existsb (key_eqb x) (set_add k s) = existsb (key_eqb x) s || key_eqb x k.
Proof.
  induction s as [ | k0 s IH]; cbn.
  - now rewrite orb_false_r.
  - destruct (key_eqb k0 k) eqn:E0; cbn.
    + rewrite <- (key_eqb_congr _ _ x E0).
      destruct (key_eqb x k0); cbn; [ reflexivity | now rewrite orb_false_r ].
    + rewrite IH. now rewrite orb_assoc.
Qed.

Lemma keys_distinct_set_add (k : pykey) (s : list pykey) :
  keys_distinct s = true -> keys_distinct (set_add k s) = true.
Proof.
  induction s as [ | k0 s IH]; cbn; [ reflexivity | ].
  intro H. apply andb_true_iff in H as [H0 Hs].
  destruct (key_eqb k0 k) eqn:E0; cbn.
  - now rewrite H0, Hs.
  - rewrite existsb_set_add, E0, orb_false_r, H0. cbn. now apply IH.
Qed.

Lemma set_add_members (x k : pykey) (s : list pykey) :
  In x (set_add k s) -> In x s \/ x = k.
Proof.
  induction s as [ | k0 s IH]; cbn.
  - intros [<- | []]. now right.
  - destruct (key_eqb k0 k); cbn; [ auto | ].
    intros [H | H]; [ auto | ]. destruct (IH H); auto.
Qed.

Lemma set_fold_spec (ks acc : list pykey) :
  (keys_distinct acc = true ->
   keys_distinct (fold_left (fun s k => set_add k s) ks acc) = true)
  /\ (forall x,
        existsb (key_eqb x) (fold_left (fun s k => set_add k s) ks acc) =
        existsb (key_eqb x) acc || existsb (key_eqb x) ks)
  /\ forall x,
       In x (fold_left (fun s k => set_add k s) ks acc) -> In x acc \/ In x ks.
Proof.
  revert acc. induction ks as [ | k ks IH]; intro acc; cbn [fold_left existsb In].
  - split; [ auto | split; [ intro x; now rewrite orb_false_r | auto ] ].
  - destruct (IH (set_add k acc)) as (Hd & Hx & Hin). split; [ | split ].
    + intro H. apply Hd. now apply keys_distinct_set_add.
    + intro x. rewrite Hx, existsb_set_add. now rewrite orb_assoc.
    + intros x H. apply Hin in H as [H | H]; [ | auto ].
      apply set_add_members in H as [H | ->]; auto.
Qed.

Lemma existsb_key_str (s : string) (ks : list pykey) :
  existsb (key_eqb (KStr s)) ks = true <-> In (KStr s) ks.
Proof.
  rewrite existsb_exists. split.
  - intros (k & Hin & Hk). rewrite key_eqb_sym in Hk.
    apply key_eqb_str in Hk. now subst.
  - intro H. exists (KStr s). split; [ exact H | apply key_eqb_refl ].
Qed.

Lemma keys_distinct_NoDup (ks : list pykey) : keys_distinct ks = true -> NoDup ks.
Proof.
  induction ks as [ | k ks IH]; cbn; intro H; constructor.
  - apply andb_true_iff in H as [H _]. apply negb_true_iff in H.
    intro Hin. apply not_true_iff_false in H. apply H.
    apply existsb_exists. exists k. split; [ exact Hin | apply key_eqb_refl ].
  - apply andb_true_iff in H as [_ H]. now apply IH.
Qed.

(** Listing a set rearranges its members, whatever the seed. *)
Lemma rank_insert_perm (rank : pykey -> Z) (k : pykey) (l : list pykey) :
  Permutation (rank_insert rank k l) (k :: l).
Proof.
  induction l as [ | k' l IH]; cbn; [ reflexivity | ].
  destruct (rank k <? rank k'); [ reflexivity | ].
  rewrite IH. apply perm_swap.
Qed.

Lemma set_iteration_perm (rank : pykey -> Z) (s : list pykey) :
  Permutation (set_iteration rank s) s.
Proof.
  unfold set_iteration. induction s as [ | k s IH]; cbn; [ reflexivity | ].
  rewrite rank_insert_perm. now constructor.
Qed.

Lemma mapM_hash_models (convs : list ContextEntry) :
  forallb entry_typed convs = true ->
  exists ks,
    mapM hash_key (map model convs) = Ok ks
    /\ forall k, In k ks <-> exists c, In c convs /\ model c = key_val k.
Proof.
  induction convs as [ | c convs IH]; cbn [forallb map mapM]; intro H.
  - exists []. split; [ reflexivity | ].
    intro k. split; [ intros [] | intros (c & [] & _) ].
  - apply andb_true_iff in H as [Hc H]. destruct (IH H) as (ks & Hks & Hin).
    unfold entry_typed in Hc.
    destruct (model c) as [ | | | name | | ] eqn:Em; try discriminate.
    exists (KStr name :: ks). cbn [hash_key bind]. rewrite Hks. cbn [bind].
    split; [ reflexivity | ].
    intro k. cbn [In]. rewrite Hin. split.
    + intros [<- | (c' & Hc' & Hm)].
      * exists c. auto.
      * exists c'. auto.
    + intros (c' & [<- | Hc'] & Hm).
      * left. rewrite Em in Hm. destruct k; cbn in Hm; congruence.
      * right. exists c'. auto.
Qed.

Lemma typed_model_key (convs : list ContextEntry) (c : ContextEntry) (k : pykey) :
  forallb entry_typed convs = true ->
  In c convs -> model c = key_val k -> exists s, k = KStr s.
Proof.
  intros H Hin Hm. rewrite forallb_forall in H. apply H in Hin.
  unfold entry_typed in Hin. rewrite Hm in Hin.
  destruct k; cbn in Hin; try discriminate. eauto.
Qed.

(** The summary of a store that obeys the annotations, for every
    seed: [base] holds the producers, each once. *)
Lemma get_summary_typed (ctx : SharedContext) :
  store_typed ctx = true ->
  exists base d l,
    discovered_info ctx = PDict d
    /\ tool_outputs ctx = PList l
    /\ NoDup base
    /\ (forall k, In k base <-> exists c, In c (conversations ctx) /\ model c = key_val k)
    /\ forall rank,
         get_summary rank ctx =
         Ok (PDict [(KStr "total_conversations",
                     PInt (Z.of_nat (List.length (conversations ctx))));
                    (KStr "models_involved",
                     PList (map key_val (set_iteration rank base)));
                    (KStr "discoveries_count", PInt (Z.of_nat (List.length d)));
                    (KStr "tool_outputs_count", PInt (Z.of_nat (List.length l)))]).
Proof.
  unfold store_typed. intro H.
  apply andb_true_iff in H as [H Hd]. apply andb_true_iff in H as [Hc Ht].
  destruct (tool_outputs ctx) as [ | | | | l | ] eqn:El; try discriminate.
  destruct (discovered_info ctx) as [ | | | | | d] eqn:Ed; try discriminate.
  destruct (mapM_hash_models _ Hc) as (ks & Hks & Hin).
  destruct (set_fold_spec ks []) as (Hdist & Hex & Hsub).
  exists (fold_left (fun s k => set_add k s) ks []), d, l.
  split; [ reflexivity | split; [ reflexivity | split; [ | split ] ] ].
  - apply keys_distinct_NoDup. now apply Hdist.
  - intro k. rewrite <- Hin. split.
    + intro Hk. apply Hsub in Hk as [[] | Hk]. exact Hk.
    + intro Hk. pose proof Hk as Hk'. apply Hin in Hk' as (c & Hcin & Hm).
      destruct (typed_model_key _ _ _ Hc Hcin Hm) as [s ->].
      apply existsb_key_str. rewrite Hex. apply orb_true_iff. right.
      now apply existsb_key_str.
  - intro rank. unfold get_summary, set_of. rewrite Hks, El, Ed. reflexivity.
Qed.

(** ** Export followed by import *)









(** * Further properties of the store *)

(** ** [clear_context] *)

Lemma slice_from_nil {A : Type} (start : Z) : slice_from start (@nil A) = [].
Proof. unfold slice_from. apply skipn_nil. Qed.

(** After [clear_context], whatever the store held (also values that
    break the annotations), [get_summary] reports zero entries, no
    producer, zero discoveries and zero tool outputs, and
    [get_context] returns three empty containers to every consumer
    and for every bound. *)
Theorem clear_context_resets (rank : pykey -> Z) (ctx : SharedContext) (P : string)
    (k : Z) :
  get_summary rank (clear_context ctx) =
  Ok (PDict [(KStr "total_conversations", PInt 0);
             (KStr "models_involved", PList []);
             (KStr "discoveries_count", PInt 0);
             (KStr "tool_outputs_count", PInt 0)])
  /\ get_context (clear_context ctx) P k = Ok (relevant_context [] [] (PList [])).
Proof.
  split; [ reflexivity | ].
  unfold get_context, clear_context, other_conversations, empty_context.
  cbn [conversations filter tool_outputs discovered_info].
  rewrite slice_from_nil. reflexivity.
Qed.

(** ** The normal path of [store_context] *)

Lemma dict_merge_nil (d : pydict) : dict_merge d [] = d.
Proof. reflexivity. Qed.

Lemma store_context_shaped (ctx : SharedContext) (m t : string) (c : pydict)
    (l : list pyval) (d : pydict) :
  tool_outputs ctx = PList l ->
  discovered_info ctx = PDict d ->
  payload_shaped c = true ->
  store_context ctx m t c =
  ({| conversations :=
        conversations ctx
        ++ [{| model := PStr m; timestamp := PStr t; content := PDict c |}];
      tool_outputs := PList (l ++ tool_outputs_list c);
      discovered_info := PDict (dict_merge d (discoveries_submap c)) |}, None).
Proof.
  intros El Ed H. unfold payload_shaped in H. apply andb_true_iff in H as [Hd Ht].
  unfold store_context, discoveries_is_mapping, discoveries_submap,
    tool_outputs_is_list, tool_outputs_list in *.
  destruct (dict_get (KStr "discoveries") c) as [[ | | | | | o] | ]; try discriminate;
    destruct (dict_get (KStr "tool_outputs") c) as [[ | | | | xs | ] | ]; try discriminate.
  - rewrite (merge_discoveries_dict _ _ d) by exact Ed. cbn [dict_update fst snd].
    rewrite (extend_tool_outputs_list _ _ l) by exact El. reflexivity.
  - rewrite (merge_discoveries_dict _ _ d) by exact Ed. cbn [dict_update fst snd].
    cbn [tool_outputs]. now rewrite El, app_nil_r.
  - rewrite (extend_tool_outputs_list _ _ l) by exact El.
    cbn [iter conversations discovered_info]. now rewrite Ed.
  - cbn [tool_outputs discovered_info]. now rewrite El, Ed, app_nil_r.
Qed.

(** On a store whose containers are a list and a dictionary, a payload
    whose [discoveries] is a mapping (or absent) and whose
    [tool_outputs] is a list (or absent) is stored without an
    exception: the entry goes last in the log, the tool outputs go
    last in the buffer, element by element, and the discoveries are
    merged into the discovery map. *)
Theorem store_context_shaped_payload (ctx : SharedContext) (m t : string) (c : pydict)
    (l : list pyval) (d : pydict) :
  tool_outputs ctx = PList l ->
  discovered_info ctx = PDict d ->
  payload_shaped c = true ->
  store_context ctx m t c =
  ({| conversations :=
        conversations ctx
        ++ [{| model := PStr m; timestamp := PStr t; content := PDict c |}];
      tool_outputs := PList (l ++ tool_outputs_list c);
      discovered_info := PDict (dict_merge d (discoveries_submap c)) |}, None).
Proof. exact (store_context_shaped ctx m t c l d). Qed.

Lemma store_context_shaped_payload_witness :
  tool_outputs scenario_store = PList []
  /\ discovered_info scenario_store = PDict [(KStr "lang", PStr "py")]
  /\ payload_shaped [(KStr "tool_outputs", PList [PInt 1; PInt 2]);
                     (KStr "discoveries", PDict [(KStr "lang", PStr "c")])] = true
  /\ store_context scenario_store "gemini" "T3"
       [(KStr "tool_outputs", PList [PInt 1; PInt 2]);
        (KStr "discoveries", PDict [(KStr "lang", PStr "c")])] =
     ({| conversations :=
           conversations scenario_store
           ++ [{| model := PStr "gemini"; timestamp := PStr "T3";
                  content := PDict [(KStr "tool_outputs", PList [PInt 1; PInt 2]);
                                    (KStr "discoveries", PDict [(KStr "lang", PStr "c")])] |}];
         tool_outputs :=
           PList ([] ++ tool_outputs_list
                          [(KStr "tool_outputs", PList [PInt 1; PInt 2]);
                           (KStr "discoveries", PDict [(KStr "lang", PStr "c")])]);
         discovered_info :=
           PDict (dict_merge [(KStr "lang", PStr "py")]
                    (discoveries_submap
                       [(KStr "tool_outputs", PList [PInt 1; PInt 2]);
                        (KStr "discoveries", PDict [(KStr "lang", PStr "c")])])) |}, None).
Proof.
  split; [ reflexivity | split; [ reflexivity | split; [ reflexivity | ] ] ].
  apply store_context_shaped_payload; reflexivity.
Defined.

Lemma store_all_shaped (calls : list call) (ctx : SharedContext) (l : list pyval)
    (d : pydict) :
  tool_outputs ctx = PList l ->
  discovered_info ctx = PDict d ->
  forallb (fun c => payload_shaped (call_context c)) calls = true ->
  tool_outputs (store_all ctx calls) =
  PList (l ++ List.concat (map (fun c => tool_outputs_list (call_context c)) calls)).
Proof.
  unfold store_all. revert ctx l d.
  induction calls as [ | c calls IH]; intros ctx l d El Ed H; cbn [fold_left map List.concat].
  - now rewrite app_nil_r.
  - cbn [forallb] in H. apply andb_true_iff in H as [Hc H].
    rewrite (store_context_shaped ctx _ _ _ l d El Ed Hc). cbn [fst].
    rewrite app_assoc. now apply (IH _ _ (dict_merge d (discoveries_submap (call_context c)))).
Qed.

(** The tool-output buffer of a server that only received well-shaped
    payloads is the concatenation, in call order, of the payloads'
    [tool_outputs] lists. *)
Theorem store_all_tool_outputs (calls : list call) :
  forallb (fun c => payload_shaped (call_context c)) calls = true ->
  tool_outputs (store_all empty_context calls) =
  PList (List.concat (map (fun c => tool_outputs_list (call_context c)) calls)).
Proof.
  intro H. now rewrite (store_all_shaped calls empty_context [] [] eq_refl eq_refl H).
Qed.

Lemma store_all_tool_outputs_witness :
  forallb (fun c => payload_shaped (call_context c))
    [call_tools "claude" "T1" [PStr "lint ok"; PInt 3]; call_gpt4;
     call_tools "gemini" "T3" [PDict [(KStr "tool", PStr "grep")]]] = true
  /\ tool_outputs
       (store_all empty_context
          [call_tools "claude" "T1" [PStr "lint ok"; PInt 3]; call_gpt4;
           call_tools "gemini" "T3" [PDict [(KStr "tool", PStr "grep")]]])
     = PList [PStr "lint ok"; PInt 3; PDict [(KStr "tool", PStr "grep")]]
  /\ tool_outputs
       (store_all empty_context
          [call_tools "claude" "T1" [PStr "lint ok"; PInt 3]; call_gpt4;
           call_tools "gemini" "T3" [PDict [(KStr "tool", PStr "grep")]]])
     = PList (List.concat
                (map (fun c => tool_outputs_list (call_context c))
                   [call_tools "claude" "T1" [PStr "lint ok"; PInt 3]; call_gpt4;
                    call_tools "gemini" "T3" [PDict [(KStr "tool", PStr "grep")]]])).
Proof.
  split; [ reflexivity | split; [ reflexivity | ] ].
  apply (store_all_tool_outputs
           [call_tools "claude" "T1" [PStr "lint ok"; PInt 3]; call_gpt4;
            call_tools "gemini" "T3" [PDict [(KStr "tool", PStr "grep")]]]).
  reflexivity.
Defined.

(** ** More on the error path of [store_context] *)

(** When the [discoveries] value is not iterable the call stops at
    the merge: the entry is in the log, and neither the discovery map
    nor the tool-output buffer changes, even if the payload carries a
    good [tool_outputs] list. *)
Theorem store_context_failed_merge_skips_tool_outputs (ctx : SharedContext)
    (m t : string) (c : pydict) (v : pyval) :
  dict_get (KStr "discoveries") c = Some v ->
  not_iterable v = true ->
  fst (store_context ctx m t c) =
  {| conversations :=
       conversations ctx
       ++ [{| model := PStr m; timestamp := PStr t; content := PDict c |}];
     tool_outputs := tool_outputs ctx;
     discovered_info := discovered_info ctx |}.
Proof.
  intros Hv Hn. unfold store_context. rewrite Hv. unfold merge_discoveries.
  cbn [discovered_info conversations tool_outputs].
  destruct (discovered_info ctx) as [ | | | | | d] eqn:Ed; try reflexivity.
  rewrite (dict_update_not_iterable _ _ Hn). reflexivity.
Qed.

Lemma store_context_failed_merge_skips_tool_outputs_witness :
  dict_get (KStr "discoveries")
    [(KStr "discoveries", PNone); (KStr "tool_outputs", PList [PInt 7])] = Some PNone
  /\ not_iterable PNone = true
  /\ fst (store_context scenario_store "gemini" "T3"
            [(KStr "discoveries", PNone); (KStr "tool_outputs", PList [PInt 7])]) =
     {| conversations :=
          conversations scenario_store
          ++ [{| model := PStr "gemini"; timestamp := PStr "T3";
                 content := PDict [(KStr "discoveries", PNone);
                                   (KStr "tool_outputs", PList [PInt 7])] |}];
        tool_outputs := tool_outputs scenario_store;
        discovered_info := discovered_info scenario_store |}.
Proof.
  split; [ reflexivity | split; [ reflexivity | ] ].
  apply (store_context_failed_merge_skips_tool_outputs scenario_store "gemini" "T3"
           [(KStr "discoveries", PNone); (KStr "tool_outputs", PList [PInt 7])] PNone);
    reflexivity.
Defined.

(** ** The parts of a view that ignore consumer and bound *)

(** On a store that obeys the annotations, every view, whoever asks
    and with whatever bound, carries the whole discovery map as
    [key_findings] and the last ten elements of the tool-output buffer
    (all of them when there are fewer) as [recent_tool_outputs]. *)
Theorem get_context_shared_parts (ctx : SharedContext) :
  store_typed ctx = true ->
  exists d l r,
    discovered_info ctx = PDict d
    /\ tool_outputs ctx = PList l
    /\ is_suffix r l
    /\ Z.of_nat (List.length r) = Z.min 10 (Z.of_nat (List.length l))
    /\ forall (P : string) (k : Z),
         exists view,
           get_context ctx P k = Ok view
           /\ view_field "key_findings" view = Some (PDict d)
           /\ view_field "recent_tool_outputs" view = Some (PList r).
Proof.
  intro Ht.
  destruct (get_context_typed ctx "" 0 Ht) as (pa0 & d & l & Ed & El & _ & _).
  exists d, l, (slice_from (-10) l).
  split; [ exact Ed | split; [ exact El | split; [ | split ] ] ].
  - eexists. apply slice_from_suffix.
  - apply (slice_from_tail_length 10 l). lia.
  - intros P k.
    destruct (get_context_typed ctx P k Ht) as (pa & d' & l' & Ed' & El' & _ & Hget).
    rewrite Ed in Ed'. rewrite El in El'. injection Ed' as <-. injection El' as <-.
    eexists. split; [ exact Hget | split; reflexivity ].
Qed.

Lemma get_context_shared_parts_witness :
  store_typed scenario_store = true
  /\ exists d l r,
       discovered_info scenario_store = PDict d
       /\ tool_outputs scenario_store = PList l
       /\ is_suffix r l
       /\ Z.of_nat (List.length r) = Z.min 10 (Z.of_nat (List.length l))
       /\ forall (P : string) (k : Z),
            exists view,
              get_context scenario_store P k = Ok view
              /\ view_field "key_findings" view = Some (PDict d)
              /\ view_field "recent_tool_outputs" view = Some (PList r).
Proof.
  split; [ reflexivity | ].
  apply (get_context_shared_parts scenario_store). reflexivity.
Defined.

(** ** Bounds that are not positive *)

Lemma skipn_min {A : Type} (n : nat) (l : list A) :
  skipn (Nat.min n (List.length l)) l = skipn n l.
Proof.
  destruct (Nat.le_gt_cases n (List.length l)) as [H | H].
  - now rewrite Nat.min_l.
  - rewrite Nat.min_r by lia. rewrite !skipn_all2 by lia. reflexivity.
Qed.

Lemma slice_from_nonnegative {A : Type} (n : Z) (l : list A) :
  0 <= n -> slice_from n l = skipn (Z.to_nat n) l.
Proof.
  intro H. unfold slice_from, slice_start.
  destruct (Z.ltb_spec n 0); [ lia | ]. apply skipn_min.
Qed.

(** With [max_entries <= 0] the bound does not bound: whenever
    [get_context] returns a view, its [previous_analysis] holds the
    analysis records, in log order, of the entries not produced by the
    consumer except the first [-max_entries] of them, so of all of
    them for [0]; and it returns a view on every store that obeys the
    annotations. *)
Theorem get_context_nonpositive_bound (ctx : SharedContext) (P : string) (k : Z) :
  k <= 0 ->
  (forall view,
     get_context ctx P k = Ok view ->
     exists pa,
       view_field "previous_analysis" view = Some (PList pa)
       /\ Forall2 is_analysis_of
            (skipn (Z.to_nat (- k))
               (filter (fun c => negb (produced_by P c)) (conversations ctx)))
            pa)
  /\ (store_typed ctx = true -> exists view, get_context ctx P k = Ok view).
Proof.
  intro Hk. split; [ | apply get_context_returns ].
  intros view Hview.
  destruct (get_context_previous_analysis ctx P k view Hview) as (pa & Hpa & H2).
  exists pa. split; [ exact Hpa | ].
  now rewrite slice_from_nonnegative in H2 by lia.
Qed.

Lemma get_context_nonpositive_bound_witness :
  -1 <= 0
  /\ get_context scenario_store "gemini" (-1)
     = Ok (relevant_context
             [analysis_record (entry_of call_gpt4) (call_context call_gpt4)]
             [(KStr "lang", PStr "py")] (PList []))
  /\ exists pa,
       view_field "previous_analysis"
         (relevant_context
            [analysis_record (entry_of call_gpt4) (call_context call_gpt4)]
            [(KStr "lang", PStr "py")] (PList []))
       = Some (PList pa)
       /\ Forall2 is_analysis_of
            (skipn (Z.to_nat (- -1))
               (filter (fun c => negb (produced_by "gemini" c))
                  (conversations scenario_store)))
            pa.
Proof.
  split; [ lia | split; [ reflexivity | ] ].
  destruct (get_context_nonpositive_bound scenario_store "gemini" (-1)) as [H _]; [ lia | ].
  apply H. reflexivity.
Defined.

(** ** [store_context] followed by [get_context] *)

Lemma slice_from_snoc {A : Type} (k : Z) (l : list A) (x : A) :
  1 <= k ->
  exists kept, slice_from (- k) (l ++ [x]) = kept ++ [x] /\ is_suffix kept l.
Proof.
  intro Hk. unfold slice_from, slice_start.
  destruct (Z.ltb_spec (- k) 0); [ | lia ].
  rewrite length_app. cbn [List.length].
  set (n := Z.to_nat (Z.max 0 (- k + Z.of_nat (List.length l + 1)))).
  assert (Hn : (n <= List.length l)%nat) by lia.
  exists (skipn n l). split.
  - rewrite skipn_app. replace (n - List.length l)%nat with 0%nat by lia. reflexivity.
  - exists (firstn n l). symmetry. apply firstn_skipn.
Qed.

Lemma filter_snoc {A : Type} (f : A -> bool) (l : list A) (x : A) :
  filter f (l ++ [x]) = if f x then filter f l ++ [x] else filter f l.
Proof.
  rewrite filter_app. cbn. destruct (f x); [ reflexivity | apply app_nil_r ].
Qed.

Lemma model_differs_own (m t : string) (c : pydict) :
  model_differs m {| model := PStr m; timestamp := PStr t; content := PDict c |} = false.
Proof. unfold model_differs. cbn. now rewrite String.eqb_refl. Qed.

Lemma model_differs_other (P m t : string) (c : pydict) :
  P <> m ->
  model_differs P {| model := PStr m; timestamp := PStr t; content := PDict c |} = true.
Proof.
  intro H. unfold model_differs. cbn.
  destruct (String.eqb_spec m P); [ congruence | reflexivity ].
Qed.

(** A consumer reads what another producer has just stored: after
    [store_context(m, c)] on a store that obeys the annotations,
    whether or not the call raised, every other consumer's view with a
    bound of at least one ends with the new entry, formatted, and the
    entries before it are a tail of that consumer's earlier view
    entries. *)
Theorem get_context_sees_new_entry (ctx : SharedContext) (m t P : string) (c : pydict)
    (k : Z) :
  store_typed ctx = true ->
  P <> m ->
  1 <= k ->
  exists kept pa kf rto,
    get_context (fst (store_context ctx m t c)) P k
    = Ok (relevant_context
            (pa ++ [PDict [(KStr "model", PStr m);
                           (KStr "timestamp", PStr t);
                           (KStr "summary", dict_get_default c (KStr "summary") (PStr ""));
                           (KStr "findings", dict_get_default c (KStr "findings") (PList []));
                           (KStr "suggestions",
                            dict_get_default c (KStr "suggestions") (PList []))]])
            kf rto)
    /\ is_suffix kept (filter (model_differs P) (conversations ctx))
    /\ Forall2 (fun e a => format_conv e = Ok a) kept pa.
Proof.
  intros Ht HP Hk.
  pose proof (store_context_typed ctx m t c Ht) as Ht'.
  destruct (get_context_typed _ P k Ht') as (pa & d & l & _ & _ & Hpa & Hget).
  unfold other_conversations in Hpa.
  rewrite store_context_conversations in Hpa. unfold entry_of in Hpa.
  cbn [call_model call_now call_context] in Hpa.
  rewrite filter_snoc, (model_differs_other P m t c HP) in Hpa.
  destruct (slice_from_snoc k (filter (model_differs P) (conversations ctx))
              {| model := PStr m; timestamp := PStr t; content := PDict c |} Hk)
    as (kept & Hs & Hsuf).
  rewrite Hs in Hpa. apply mapM_Forall2 in Hpa.
  apply Forall2_app_inv_l in Hpa as (pa1 & pa2 & H1 & H2 & ->).
  inversion H2 as [ | e a es as' He Hnil]; subst. inversion Hnil; subst.
  cbn in He. injection He as <-.
  exists kept, pa1, d, (PList (slice_from (-10) l)).
  split; [ exact Hget | split; assumption ].
Qed.

Lemma get_context_sees_new_entry_witness :
  store_typed scenario_store = true
  /\ "claude" <> "gemini"
  /\ 1 <= 10
  /\ exists kept pa kf rto,
       get_context
         (fst (store_context scenario_store "gemini" "T3" [(KStr "summary", PStr "s3")]))
         "claude" 10
       = Ok (relevant_context
               (pa ++ [PDict [(KStr "model", PStr "gemini");
                              (KStr "timestamp", PStr "T3");
                              (KStr "summary",
                               dict_get_default [(KStr "summary", PStr "s3")]
                                 (KStr "summary") (PStr ""));
                              (KStr "findings",
                               dict_get_default [(KStr "summary", PStr "s3")]
                                 (KStr "findings") (PList []));
                              (KStr "suggestions",
                               dict_get_default [(KStr "summary", PStr "s3")]
                                 (KStr "suggestions") (PList []))]])
               kf rto)
       /\ is_suffix kept (filter (model_differs "claude") (conversations scenario_store))
       /\ Forall2 (fun e a => format_conv e = Ok a) kept pa.
Proof.
  split; [ reflexivity | split; [ discriminate | split; [ lia | ] ] ].
  apply (get_context_sees_new_entry scenario_store "gemini" "T3" "claude"
           [(KStr "summary", PStr "s3")] 10); [ reflexivity | discriminate | lia ].
Defined.

(** A producer's own append never shows in its own view: the entries
    selected for the producer are the same before and after its
    [store_context] call, on every store, for every bound and whether
    or not the call raised. *)
Theorem own_append_leaves_own_view (ctx : SharedContext) (m t : string) (c : pydict)
    (k : Z) :
  other_conversations (fst (store_context ctx m t c)) m k = other_conversations ctx m k
  /\ _format_previous_analysis (other_conversations (fst (store_context ctx m t c)) m k)
     = _format_previous_analysis (other_conversations ctx m k).
Proof.
  assert (H : other_conversations (fst (store_context ctx m t c)) m k
              = other_conversations ctx m k).
  { unfold other_conversations. rewrite store_context_conversations. unfold entry_of.
    cbn [call_model call_now call_context].
    now rewrite filter_snoc, model_differs_own. }
  split; [ exact H | now rewrite H ].
Qed.

(** ** [store_context] only adds *)

Lemma dict_mem_set (k k' : pykey) (v : pyval) (d : pydict) :
  dict_mem k d = true -> dict_mem k (dict_set k' v d) = true.
Proof.
  unfold dict_mem. rewrite dict_get_set. now destruct (key_eqb k' k).
Qed.

Lemma dict_mem_merge (k : pykey) (other d : pydict) :
  dict_mem k d = true -> dict_mem k (dict_merge d other) = true.
Proof.
  unfold dict_merge. revert d.
  induction other as [ | [k' v] other IH]; intros d H; cbn [fold_left]; [ exact H | ].
  apply IH. now apply dict_mem_set.
Qed.

Lemma dict_mem_merge_seq2 (k : pykey) (items : list pyval) (d : pydict) :
  dict_mem k d = true -> dict_mem k (fst (dict_merge_seq2 d items)) = true.
Proof.
  revert d. induction items as [ | item items IH]; intros d H; cbn [dict_merge_seq2];
    [ exact H | ].
  destruct (iter item) as [[ | a [ | b [ | x xs]]] | e]; try exact H.
  destruct (hash_key a) as [k' | e]; [ | exact H ].
  apply IH. now apply dict_mem_set.
Qed.

Lemma dict_mem_update (k : pykey) (other : pyval) (d : pydict) :
  dict_mem k d = true -> dict_mem k (fst (dict_update d other)) = true.
Proof.
  intro H. destruct other as [ | b | z | s | l | o]; cbn [dict_update iter fst];
    try exact H.
  - now apply dict_mem_merge_seq2.
  - now apply dict_mem_merge_seq2.
  - now apply dict_mem_merge.
Qed.

(** Whatever the payload and whether or not the call raises,
    [store_context] on a store whose containers are a list and a
    dictionary removes nothing: the old log is the beginning of the
    new log, the old tool-output buffer the beginning of the new
    buffer, and every key of the old discovery map is a key of the new
    one. *)
Theorem store_context_only_adds (ctx : SharedContext) (m t : string) (c : pydict)
    (l : list pyval) (d : pydict) :
  tool_outputs ctx = PList l ->
  discovered_info ctx = PDict d ->
  exists l' d',
    tool_outputs (fst (store_context ctx m t c)) = PList l'
    /\ discovered_info (fst (store_context ctx m t c)) = PDict d'
    /\ is_prefix (conversations ctx) (conversations (fst (store_context ctx m t c)))
    /\ is_prefix l l'
    /\ forall k, dict_mem k d = true -> dict_mem k d' = true.
Proof.
  intros El Ed.
  assert (Hlog : is_prefix (conversations ctx) (conversations (fst (store_context ctx m t c))))
    by (eexists; apply store_context_conversations).
  assert (Hl0 : is_prefix l l) by (exists []; now rewrite app_nil_r).
  unfold store_context in *.
  destruct (dict_get (KStr "discoveries") c) as [dv | ].
  - rewrite (merge_discoveries_dict _ dv d) in * by exact Ed.
    pose proof (fun k => dict_mem_update k dv d) as Hmem.
    destruct (dict_update d dv) as [d1 [e | ]]; cbn [fst snd] in *.
    + exists l, d1. cbn. auto.
    + destruct (dict_get (KStr "tool_outputs") c) as [tv | ].
      * rewrite (extend_tool_outputs_list _ tv l) in * by exact El.
        destruct (iter tv) as [xs | e]; cbn [fst tool_outputs discovered_info] in *.
        -- exists (l ++ xs), d1. repeat split; auto. now exists xs.
        -- exists l, d1. auto.
      * exists l, d1. cbn. auto.
  - destruct (dict_get (KStr "tool_outputs") c) as [tv | ].
    + rewrite (extend_tool_outputs_list _ tv l) in * by exact El.
      destruct (iter tv) as [xs | e]; cbn [fst tool_outputs discovered_info] in *.
      * exists (l ++ xs), d. repeat split; auto. now exists xs.
      * exists l, d. auto.
    + exists l, d. cbn. auto.
Qed.

Lemma store_context_only_adds_witness :
  tool_outputs scenario_store = PList []
  /\ discovered_info scenario_store = PDict [(KStr "lang", PStr "py")]
  /\ exists l' d',
       tool_outputs (fst (store_context scenario_store "gemini" "T3"
                            [(KStr "discoveries", PInt 5)])) = PList l'
       /\ discovered_info (fst (store_context scenario_store "gemini" "T3"
                                  [(KStr "discoveries", PInt 5)])) = PDict d'
       /\ is_prefix (conversations scenario_store)
            (conversations (fst (store_context scenario_store "gemini" "T3"
                                   [(KStr "discoveries", PInt 5)])))
       /\ is_prefix [] l'
       /\ forall k, dict_mem k [(KStr "lang", PStr "py")] = true -> dict_mem k d' = true.
Proof.
  split; [ reflexivity | split; [ reflexivity | ] ].
  apply (store_context_only_adds scenario_store "gemini" "T3"
           [(KStr "discoveries", PInt 5)] [] [(KStr "lang", PStr "py")]); reflexivity.
Defined.

(** ** A half-done merge *)

Lemma hash_key_val (k : pykey) : hash_key (key_val k) = Ok k.
Proof. now destruct k. Qed.

Lemma dict_merge_seq2_pairs (good : pydict) (rest : list pyval) (d : pydict) :
  dict_merge_seq2 d (map pair_item good ++ rest) =
  dict_merge_seq2 (dict_merge d good) rest.
Proof.
  unfold dict_merge. revert d.
  induction good as [ | [k v] good IH]; intro d; cbn [map app fold_left]; [ reflexivity | ].
  cbn [dict_merge_seq2 pair_item iter fst snd]. rewrite hash_key_val. apply IH.
Qed.

(** The merge of [discoveries] is not all-or-nothing either: when the
    value is a list of key/value pairs followed by an item that is not
    iterable, [store_context] raises [TypeError] with the pairs before
    the bad item already in the discovery map (and the entry in the
    log); the tool outputs of the payload are not stored. *)
Theorem store_context_half_merged (ctx : SharedContext) (m t : string) (c : pydict)
    (d good : pydict) (bad : pyval) (rest : list pyval) :
  discovered_info ctx = PDict d ->
  dict_get (KStr "discoveries") c = Some (PList (map pair_item good ++ bad :: rest)) ->
  not_iterable bad = true ->
  store_context ctx m t c =
  ({| conversations :=
        conversations ctx
        ++ [{| model := PStr m; timestamp := PStr t; content := PDict c |}];
      tool_outputs := tool_outputs ctx;
      discovered_info := PDict (dict_merge d good) |}, Some TypeError).
Proof.
  intros Ed Hc Hbad. unfold store_context. rewrite Hc.
  rewrite (merge_discoveries_dict _ _ d) by exact Ed.
  cbn [dict_update iter]. rewrite dict_merge_seq2_pairs.
  cbn [dict_merge_seq2]. destruct bad; try discriminate; reflexivity.
Qed.

Lemma store_context_half_merged_witness :
  discovered_info scenario_store = PDict [(KStr "lang", PStr "py")]
  /\ dict_get (KStr "discoveries")
       [(KStr "discoveries",
         PList (map pair_item [(KStr "os", PStr "linux")] ++ PInt 5 :: []))]
     = Some (PList (map pair_item [(KStr "os", PStr "linux")] ++ PInt 5 :: []))
  /\ not_iterable (PInt 5) = true
  /\ store_context scenario_store "gemini" "T3"
       [(KStr "discoveries",
         PList (map pair_item [(KStr "os", PStr "linux")] ++ PInt 5 :: []))] =
     ({| conversations :=
           conversations scenario_store
           ++ [{| model := PStr "gemini"; timestamp := PStr "T3";
                  content :=
                    PDict [(KStr "discoveries",
                            PList (map pair_item [(KStr "os", PStr "linux")]
                                   ++ PInt 5 :: []))] |}];
         tool_outputs := tool_outputs scenario_store;
         discovered_info :=
           PDict (dict_merge [(KStr "lang", PStr "py")] [(KStr "os", PStr "linux")]) |},
      Some TypeError).
Proof.
  split; [ reflexivity | split; [ reflexivity | split; [ reflexivity | ] ] ].
  apply (store_context_half_merged scenario_store "gemini" "T3" _
           [(KStr "lang", PStr "py")] [(KStr "os", PStr "linux")] (PInt 5) []);
    reflexivity.
Defined.

(** ** What [get_summary] reports *)

(** On a store that obeys the annotations [get_summary] returns, under
    every hash seed, and what it returns is right: the number of log
    entries, the list of the producers (a value is listed if and only
    if it is the producer of a log entry, and none is listed twice;
    the order is the seed's), the number of keys of the discovery map
    and the number of buffered tool outputs. *)
Theorem get_summary_counts (rank : pykey -> Z) (ctx : SharedContext) :
  store_typed ctx = true ->
  exists models d l,
    discovered_info ctx = PDict d
    /\ tool_outputs ctx = PList l
    /\ get_summary rank ctx =
       Ok (PDict [(KStr "total_conversations",
                   PInt (Z.of_nat (List.length (conversations ctx))));
                  (KStr "models_involved", PList models);
                  (KStr "discoveries_count", PInt (Z.of_nat (List.length d)));
                  (KStr "tool_outputs_count", PInt (Z.of_nat (List.length l)))])
    /\ NoDup models
    /\ forall v, In v models <-> exists c, In c (conversations ctx) /\ model c = v.
Proof.
  intro Ht.
  destruct (get_summary_typed ctx Ht) as (base & d & l & Ed & El & Hnd & Hin & Hs).
  exists (map key_val (set_iteration rank base)), d, l.
  split; [ exact Ed | split; [ exact El | split; [ apply Hs | split ] ] ].
  - apply Finite.Injective_map_NoDup.
    + intros k1 k2 H. destruct k1, k2; cbn in H; congruence.
    + apply (Permutation_NoDup (l := base)); [ | exact Hnd ].
      symmetry. apply set_iteration_perm.
  - intro v. rewrite in_map_iff. split.
    + intros (k & <- & Hk).
      apply (Permutation_in _ (set_iteration_perm rank base)) in Hk.
      now apply Hin.
    + intros (c & Hc & Hm).
      unfold store_typed in Ht. apply andb_true_iff in Ht as [Ht _].
      apply andb_true_iff in Ht as [Ht _].
      rewrite forallb_forall in Ht. pose proof (Ht c Hc) as Hty.
      unfold entry_typed in Hty. rewrite Hm in Hty.
      destruct v as [ | | | s | | ]; try discriminate.
      exists (KStr s). split; [ reflexivity | ].
      apply (Permutation_in _ (Permutation_sym (set_iteration_perm rank base))).
      apply Hin. exists c. auto.
Qed.

Lemma get_summary_counts_witness :
  store_typed scenario_store = true
  /\ exists models d l,
       discovered_info scenario_store = PDict d
       /\ tool_outputs scenario_store = PList l
       /\ get_summary (fun k => match k with KStr "gpt4" => 0 | _ => 1 end) scenario_store =
          Ok (PDict [(KStr "total_conversations",
                      PInt (Z.of_nat (List.length (conversations scenario_store))));
                     (KStr "models_involved", PList models);
                     (KStr "discoveries_count", PInt (Z.of_nat (List.length d)));
                     (KStr "tool_outputs_count", PInt (Z.of_nat (List.length l)))])
       /\ NoDup models
       /\ forall v, In v models <->
                    exists c, In c (conversations scenario_store) /\ model c = v.
Proof.
  split; [ reflexivity | ].
  apply (get_summary_counts (fun k => match k with KStr "gpt4" => 0 | _ => 1 end)
           scenario_store).
  reflexivity.
Defined.

(** ** Malformed snapshots *)

Lemma is_field_names (k : pykey) :
  is_field k = true ->
  k = KStr "model" \/ k = KStr "timestamp" \/ k = KStr "content".
Proof.
  unfold is_field. intro H.
  apply orb_true_iff in H as [H | H]; [ apply orb_true_iff in H as [H | H] | ];
    apply key_eqb_str in H; auto.
Qed.

Lemma make_entry_malformed (conv : pyval) :
  record_malformed conv -> make_entry conv = Raise TypeError.
Proof.
  destruct conv as [ | | | | | kw]; try reflexivity.
  cbn [record_malformed make_entry]. intro H.
  destruct (forallb (fun k => is_str_key k && is_field k) (dict_keys kw)) eqn:Ek;
    [ | reflexivity ].
  destruct H as [H | [H | [H | (k & Hin & Hm & Ht & Hc)]]].
  - now rewrite H.
  - rewrite H. now destruct (dict_get (KStr "model") kw).
  - rewrite H. now destruct (dict_get (KStr "model") kw), (dict_get (KStr "timestamp") kw).
  - rewrite forallb_forall in Ek. apply Ek in Hin.
    apply andb_true_iff in Hin as [_ Hf]. apply is_field_names in Hf. intuition congruence.
Qed.

Lemma make_entry_error (conv : pyval) (e : exn) :
  make_entry conv = Raise e -> e = TypeError.
Proof.
  unfold make_entry. destruct conv; try (intro H; now injection H as <-).
  destruct (forallb _ _); [ | intro H; now injection H as <- ].
  destruct (dict_get (KStr "model") d), (dict_get (KStr "timestamp") d),
    (dict_get (KStr "content") d); intro H; try discriminate; now injection H as <-.
Qed.

Lemma mapM_make_entry_malformed (convs : list pyval) (conv : pyval) :
  In conv convs -> record_malformed conv -> mapM make_entry convs = Raise TypeError.
Proof.
  induction convs as [ | c convs IH]; intros Hin Hm; [ destruct Hin | ].
  cbn [mapM]. destruct (make_entry c) as [entry | e] eqn:Ec.
  - destruct Hin as [-> | Hin].
    + rewrite (make_entry_malformed _ Hm) in Ec. discriminate.
    + cbn [bind]. now rewrite (IH Hin Hm).
  - cbn [bind]. now rewrite (make_entry_error _ _ Ec).
Qed.

(** A snapshot whose [conversations] list holds one item from which
    no entry can be built (not a mapping, a field missing, a key that
    is no field) is refused with [TypeError], wherever the item
    stands in the list, and the store is left as it was. *)
Theorem import_context_rejects_malformed_record (ctx : SharedContext) (d : pydict)
    (convs : list pyval) (conv : pyval) :
  dict_get (KStr "conversations") d = Some (PList convs) ->
  In conv convs ->
  record_malformed conv ->
  import_context ctx (Ok (PDict d)) = (ctx, Some TypeError).
Proof.
  intros Hd Hin Hm. unfold import_context, rebuild_context, dict_get_default.
  rewrite Hd. cbn [iter bind]. now rewrite (mapM_make_entry_malformed _ _ Hin Hm).
Qed.

Lemma import_context_rejects_malformed_record_witness :
  dict_get (KStr "conversations")
    [(KStr "conversations",
      PList [entry_to_dict (entry_of call_claude);
             PDict [(KStr "model", PStr "gpt4"); (KStr "timestamp", PStr "T2")]])]
  = Some (PList [entry_to_dict (entry_of call_claude);
                 PDict [(KStr "model", PStr "gpt4"); (KStr "timestamp", PStr "T2")]])
  /\ import_context scenario_store
       (Ok (PDict [(KStr "conversations",
                    PList [entry_to_dict (entry_of call_claude);
                           PDict [(KStr "model", PStr "gpt4");
                                  (KStr "timestamp", PStr "T2")]])]))
     = (scenario_store, Some TypeError).
Proof.
  split; [ reflexivity | ].
  apply (import_context_rejects_malformed_record scenario_store _
           [entry_to_dict (entry_of call_claude);
            PDict [(KStr "model", PStr "gpt4"); (KStr "timestamp", PStr "T2")]]
           (PDict [(KStr "model", PStr "gpt4"); (KStr "timestamp", PStr "T2")])).
  - reflexivity.
  - right. left. reflexivity.
  - cbn. right. right. left. reflexivity.
Defined.

(** [import_context] reads three fields of the document and nothing
    else: a field with any other name, added to a document or changed
    in it, changes neither the outcome nor the store that results. *)
Theorem import_context_ignores_other_fields (ctx : SharedContext) (d : pydict)
    (k : pykey) (v : pyval) :
  k <> KStr "conversations" ->
  k <> KStr "tool_outputs" ->
  k <> KStr "discovered_info" ->
  import_context ctx (Ok (PDict (dict_set k v d))) = import_context ctx (Ok (PDict d)).
Proof.
  intros Hc Ht Hd.
  assert (Hget : forall name, k <> KStr name ->
                   dict_get (KStr name) (dict_set k v d) = dict_get (KStr name) d).
  { intros name Hne. rewrite dict_get_set.
    destruct (key_eqb k (KStr name)) eqn:E; [ | reflexivity ].
    apply key_eqb_str in E. contradiction. }
  unfold import_context, rebuild_context, dict_get_default.
  now rewrite !Hget by assumption.
Qed.

Lemma import_context_ignores_other_fields_witness :
  KStr "version" <> KStr "conversations"
  /\ KStr "version" <> KStr "tool_outputs"
  /\ KStr "version" <> KStr "discovered_info"
  /\ import_context empty_context
       (Ok (PDict (dict_set (KStr "version") (PInt 2)
                     [(KStr "tool_outputs", PList [PInt 1])])))
     = import_context empty_context (Ok (PDict [(KStr "tool_outputs", PList [PInt 1])])).
Proof.
  split; [ discriminate | split; [ discriminate | split; [ discriminate | ] ] ].
  apply import_context_ignores_other_fields; discriminate.
Defined.

(** ** Export and import of any store *)














(** ** Snapshots with containers of the wrong type *)

(** [import_context] does not check what it stores as containers: a
    document without [conversations] and [discovered_info] whose
    [tool_outputs] is [None], a boolean or a number is imported without
    an error, and from then on [get_context] raises [TypeError] for
    every consumer and bound, and every [store_context] whose payload
    has [tool_outputs] (and no [discoveries]) raises
    [AttributeError]. *)
Theorem import_context_accepts_broken_buffer (ctx : SharedContext) (d : pydict)
    (v : pyval) :
  dict_get (KStr "conversations") d = None ->
  dict_get (KStr "discovered_info") d = None ->
  dict_get (KStr "tool_outputs") d = Some v ->
  not_iterable v = true ->
  exists ctx',
    import_context ctx (Ok (PDict d)) = (ctx', None)
    /\ (forall (P : string) (k : Z), get_context ctx' P k = Raise TypeError)
    /\ forall (m t : string) (c : pydict) (outputs : pyval),
         dict_get (KStr "discoveries") c = None ->
         dict_get (KStr "tool_outputs") c = Some outputs ->
         snd (store_context ctx' m t c) = Some AttributeError.
Proof.
  intros Hc Hd Ht Hv.
  exists {| conversations := []; tool_outputs := v; discovered_info := PDict [] |}.
  split; [ | split ].
  - unfold import_context, rebuild_context, dict_get_default. now rewrite Hc, Hd, Ht.
  - intros P k. unfold get_context, other_conversations.
    cbn [conversations filter discovered_info tool_outputs].
    rewrite slice_from_nil. destruct v; try discriminate; reflexivity.
  - intros m t c outputs Hdc Htc. unfold store_context. rewrite Hdc, Htc.
    unfold extend_tool_outputs. cbn [tool_outputs].
    destruct v; try discriminate; reflexivity.
Qed.

Lemma import_context_accepts_broken_buffer_witness :
  dict_get (KStr "conversations") [(KStr "tool_outputs", PInt 5)] = None
  /\ dict_get (KStr "discovered_info") [(KStr "tool_outputs", PInt 5)] = None
  /\ dict_get (KStr "tool_outputs") [(KStr "tool_outputs", PInt 5)] = Some (PInt 5)
  /\ not_iterable (PInt 5) = true
  /\ exists ctx',
       import_context scenario_store (Ok (PDict [(KStr "tool_outputs", PInt 5)]))
       = (ctx', None)
       /\ (forall (P : string) (k : Z), get_context ctx' P k = Raise TypeError)
       /\ forall (m t : string) (c : pydict) (outputs : pyval),
            dict_get (KStr "discoveries") c = None ->
            dict_get (KStr "tool_outputs") c = Some outputs ->
            snd (store_context ctx' m t c) = Some AttributeError.
Proof.
  split; [ reflexivity | split; [ reflexivity | split; [ reflexivity | ] ] ].
  split; [ reflexivity | ].
  apply (import_context_accepts_broken_buffer scenario_store
           [(KStr "tool_outputs", PInt 5)] (PInt 5)); reflexivity.
Defined.

(** ** What [_gpt4_improve] takes for Claude's analysis *)

Lemma slice_from_short {A : Type} (k : Z) (l : list A) :
  Z.of_nat (List.length l) <= k -> slice_from (- k) l = l.
Proof.
  intro H. unfold slice_from, slice_start.
  destruct (Z.ltb_spec (- k) 0).
  - replace (Z.to_nat (Z.max 0 (- k + Z.of_nat (List.length l)))) with 0%nat by lia.
    reflexivity.
  - replace (Z.to_nat (- k)) with 0%nat by lia. reflexivity.
Qed.

Lemma analysis_record_timestamp (c c' : ContextEntry) (payload payload' : pydict) :
  analysis_record c payload = analysis_record c' payload' -> timestamp c = timestamp c'.
Proof. unfold analysis_record. intro H. now injection H. Qed.

(** In [analyze_code], GPT-4 is given [previous_analysis[0]] of its
    view, taken with the default bound right after Claude's analysis
    was stored, as Claude's findings.  On a store that obeys the
    annotations this is always some record.  It is the record of the
    analysis just stored if the store held no entry of a producer
    other than ["gpt4"] before.  If it held between one and nine of
    them (a second file analysed on the same server), it is the record
    of the oldest of those entries, which is another record than the
    one of the new analysis whenever the two time stamps differ. *)
Theorem gpt4_reads_oldest_entry (ctx : SharedContext) (t : string) (c : pydict) :
  store_typed ctx = true ->
  exists view findings,
    gpt_context (fst (store_context ctx "claude" t c)) = Ok (PDict view)
    /\ claude_findings view = Ok findings
    /\ (filter (fun e => negb (produced_by "gpt4" e)) (conversations ctx) = [] ->
        findings =
        analysis_record
          {| model := PStr "claude"; timestamp := PStr t; content := PDict c |} c)
    /\ forall oldest others,
         filter (fun e => negb (produced_by "gpt4" e)) (conversations ctx)
         = oldest :: others ->
         (List.length others < 9)%nat ->
         is_analysis_of oldest findings
         /\ (timestamp oldest <> PStr t ->
             findings <>
             analysis_record
               {| model := PStr "claude"; timestamp := PStr t; content := PDict c |} c).
Proof.
  intro Ht.
  pose proof (store_context_typed ctx "claude" t c Ht) as Ht'.
  destruct (get_context_typed _ "gpt4" 10 Ht') as (pa & d & l & _ & _ & Hpa & Hget).
  apply format_records in Hpa. unfold other_conversations in Hpa.
  rewrite store_context_conversations in Hpa. unfold entry_of in Hpa.
  cbn [call_model call_now call_context] in Hpa.
  rewrite filter_snoc, (model_differs_other "gpt4" "claude" t c) in Hpa by discriminate.
  rewrite filter_not_produced in Hpa.
  set (new_entry := {| model := PStr "claude"; timestamp := PStr t; content := PDict c |})
    in *.
  set (others := filter (fun e => negb (produced_by "gpt4" e)) (conversations ctx)) in *.
  destruct (slice_from_snoc 10 others new_entry) as (kept & Hs & _); [ lia | ].
  destruct pa as [ | first pa].
  { rewrite Hs in Hpa. apply Forall2_length in Hpa. rewrite length_app in Hpa.
    cbn in Hpa. lia. }
  exists [(KStr "previous_analysis", PList (first :: pa));
          (KStr "key_findings", PDict d);
          (KStr "recent_tool_outputs", PList (slice_from (-10) l))], first.
  split; [ exact Hget | split; [ reflexivity | split ] ].
  - intro Hnil. rewrite Hnil in Hpa.
    rewrite slice_from_short in Hpa by (cbn; lia).
    cbn [app] in Hpa. inversion Hpa as [ | e a es as' He _]; subst.
    destruct He as (payload & Hp & ->). cbn in Hp. now injection Hp as <-.
  - intros oldest rest Hf Hlen. rewrite Hf in Hpa.
    rewrite slice_from_short in Hpa
      by (rewrite length_app; cbn [List.length]; lia).
    cbn [app] in Hpa. inversion Hpa as [ | e a es as' He _]; subst.
    split; [ exact He | ].
    intros Hne Heq. destruct He as (payload & _ & ->).
    apply analysis_record_timestamp in Heq. cbn in Heq. contradiction.
Qed.

Lemma gpt4_reads_oldest_entry_witness :
  store_typed scenario_store = true
  /\ filter (fun e => negb (produced_by "gpt4" e)) (conversations scenario_store)
     = [entry_of call_claude]
  /\ timestamp (entry_of call_claude) <> PStr "T3"
  /\ exists view findings,
       gpt_context (fst (store_context scenario_store "claude" "T3"
                           [(KStr "summary", PStr "s3")])) = Ok (PDict view)
       /\ claude_findings view = Ok findings
       /\ is_analysis_of (entry_of call_claude) findings
       /\ findings <>
          analysis_record
            {| model := PStr "claude"; timestamp := PStr "T3";
               content := PDict [(KStr "summary", PStr "s3")] |}
            [(KStr "summary", PStr "s3")].
Proof.
  split; [ reflexivity | split; [ reflexivity | split; [ discriminate | ] ] ].
  destruct (gpt4_reads_oldest_entry scenario_store "T3" [(KStr "summary", PStr "s3")]
              eq_refl) as (view & findings & Hview & Hfind & _ & Hold).
  destruct (Hold (entry_of call_claude) []) as [Hrec Hne]; [ reflexivity | cbn; lia | ].
  exists view, findings. split; [ exact Hview | split; [ exact Hfind | split ] ].
  - exact Hrec.
  - apply Hne. discriminate.
Defined.

(** ** [find_duplicates] *)

Section FindDuplicatesFacts.

Variable A : Type.
Variable eqb : A -> A -> bool.
Hypothesis eqb_eq : forall x y, eqb x y = true <-> x = y.

Lemma existsb_eqb_In (x : A) (l : list A) : existsb (eqb x) l = true <-> In x l.
Proof.
  rewrite existsb_exists. split.
  - intros (y & Hy & He). apply eqb_eq in He. now subst.
  - intro H. exists x. split; [ exact H | now apply eqb_eq ].
Qed.

(** Counting through a range of indices is walking the list. *)
Lemma fold_indices (B : Type) (g : B -> A -> B) (l pre : list A) (acc : B) :
  fold_left
    (fun acc j => match nth_error (pre ++ l) j with Some y => g acc y | None => acc end)
    (seq (List.length pre) (List.length l)) acc
  = fold_left g l acc.
Proof.
  revert pre acc. induction l as [ | y l IH]; intros pre acc; [ reflexivity | ].
  cbn [List.length seq fold_left].
  rewrite nth_error_app2 by lia. rewrite Nat.sub_diag. cbn [nth_error].
  specialize (IH (pre ++ [y]) (g acc y)).
  rewrite <- app_assoc, length_app in IH. cbn [app List.length] in IH.
  rewrite Nat.add_1_r in IH. exact IH.
Qed.

Lemma outer_indices (l pre duplicates : list A) :
  fold_left
    (fun duplicates i =>
       fold_left
         (fun duplicates j =>
            match nth_error (pre ++ l) i, nth_error (pre ++ l) j with
            | Some x, Some y => note_duplicate eqb x y duplicates
            | _, _ => duplicates
            end)
         (seq (i + 1) (List.length (pre ++ l) - (i + 1))) duplicates)
    (seq (List.length pre) (List.length l)) duplicates
  = scan_duplicates eqb l duplicates.
Proof.
  revert pre duplicates. induction l as [ | x l IH]; intros pre duplicates;
    [ reflexivity | ].
  cbn [List.length seq fold_left scan_duplicates].
  rewrite nth_error_app2 by lia. rewrite Nat.sub_diag. cbn [nth_error].
  pose proof (IH (pre ++ [x])) as IH'.
  rewrite <- app_assoc, (length_app pre [x]) in IH'. cbn [app List.length] in IH'.
  replace (List.length pre + 1)%nat with (S (List.length pre)) in IH' by lia.
  rewrite IH'. f_equal.
  pose proof (fold_indices _ (fun dups y => note_duplicate eqb x y dups) l (pre ++ [x])
                duplicates) as Hin.
  rewrite <- app_assoc, (length_app pre [x]) in Hin. cbn [app List.length] in Hin.
  rewrite <- Hin. f_equal. f_equal. rewrite length_app. cbn [List.length]. lia.
Qed.

Lemma find_duplicates_scan (items : list A) :
  find_duplicates eqb items = scan_duplicates eqb items [].
Proof. exact (outer_indices items [] []). Qed.

Lemma note_known (x : A) (l duplicates : list A) :
  In x duplicates ->
  fold_left (fun dups y => note_duplicate eqb x y dups) l duplicates = duplicates.
Proof.
  intro H. apply existsb_eqb_In in H.
  induction l as [ | y l IH]; [ reflexivity | ].
  cbn [fold_left].
  change (note_duplicate eqb x y duplicates)
    with (if eqb x y && negb (existsb (eqb x) duplicates)
          then duplicates ++ [x] else duplicates).
  rewrite H, andb_false_r. exact IH.
Qed.

(** One round of the outer loop adds [x] when it occurs again later
    and is not listed yet, and nothing otherwise. *)
Lemma note_round (x : A) (l duplicates : list A) :
  fold_left (fun dups y => note_duplicate eqb x y dups) l duplicates
  = if existsb (eqb x) l && negb (existsb (eqb x) duplicates)
    then duplicates ++ [x]
    else duplicates.
Proof.
  induction l as [ | y l IH]; [ reflexivity | ].
  cbn [fold_left existsb].
  change (note_duplicate eqb x y duplicates)
    with (if eqb x y && negb (existsb (eqb x) duplicates)
          then duplicates ++ [x] else duplicates).
  destruct (existsb (eqb x) duplicates) eqn:Ed; cbn [negb] in *.
  - rewrite !andb_false_r in *. exact IH.
  - rewrite !andb_true_r in *. destruct (eqb x y); cbn [orb].
    + apply note_known. apply in_or_app. right. now left.
    + exact IH.
Qed.

Lemma later_and_new (x : A) (l duplicates : list A) :
  existsb (eqb x) l && negb (existsb (eqb x) duplicates) = true
  <-> In x l /\ ~ In x duplicates.
Proof.
  rewrite andb_true_iff, negb_true_iff, existsb_eqb_In, <- not_true_iff_false,
    existsb_eqb_In. reflexivity.
Qed.

Lemma later_or_known (x : A) (l duplicates : list A) :
  existsb (eqb x) l && negb (existsb (eqb x) duplicates) = false ->
  In x l -> In x duplicates.
Proof.
  intros H Hl. apply existsb_eqb_In in Hl. rewrite Hl in H. cbn [andb] in H.
  apply negb_false_iff in H. now apply existsb_eqb_In.
Qed.

Lemma scan_spec (l duplicates : list A) :
  (NoDup duplicates -> NoDup (scan_duplicates eqb l duplicates))
  /\ forall y,
       In y (scan_duplicates eqb l duplicates) <->
       In y duplicates \/ exists l1 l2 l3, l = l1 ++ y :: l2 ++ y :: l3.
Proof.
  revert duplicates. induction l as [ | x l IH]; intro duplicates; cbn [scan_duplicates].
  - split; [ auto | ]. intro y. split; [ auto | ].
    intros [H | (l1 & l2 & l3 & H)]; [ exact H | ]. now destruct l1.
  - rewrite note_round.
    destruct (existsb (eqb x) l && negb (existsb (eqb x) duplicates)) eqn:E.
    + apply later_and_new in E as [Hl Hno].
      destruct (IH (duplicates ++ [x])) as [Hnd Hin]. split.
      * intro H. apply Hnd.
        apply NoDup_app; [ exact H | now repeat constructor | ].
        intros z Hz [<- | []]. contradiction.
      * intro y. rewrite Hin. split.
        -- intros [H | (l1 & l2 & l3 & H)].
           ++ apply in_app_or in H as [H | [<- | []]]; [ now left | ]. right.
              apply in_split in Hl as (l2 & l3 & ->). now exists [], l2, l3.
           ++ right. exists (x :: l1), l2, l3. now rewrite H.
        -- intros [H | (l1 & l2 & l3 & H)].
           ++ left. apply in_or_app. now left.
           ++ destruct l1 as [ | x' l1]; cbn [app] in H; injection H as <- ->.
              ** left. apply in_or_app. right. now left.
              ** right. now exists l1, l2, l3.
    + destruct (IH duplicates) as [Hnd Hin]. split; [ exact Hnd | ].
      intro y. rewrite Hin. split.
      * intros [H | (l1 & l2 & l3 & H)]; [ now left | ].
        right. exists (x :: l1), l2, l3. now rewrite H.
      * intros [H | (l1 & l2 & l3 & H)]; [ now left | ].
        destruct l1 as [ | x' l1]; cbn [app] in H; injection H as <- ->.
        -- left. apply (later_or_known _ _ _ E). apply in_or_app. right. now left.
        -- right. now exists l1, l2, l3.
Qed.

(** [find_duplicates] returns exactly the values that occur at
    least twice in [items], and each of them once. *)
Theorem find_duplicates_exact (items : list A) :
  NoDup (find_duplicates eqb items)
  /\ forall y,
       In y (find_duplicates eqb items) <->
       exists l1 l2 l3, items = l1 ++ y :: l2 ++ y :: l3.
Proof.
  rewrite find_duplicates_scan. destruct (scan_spec items []) as [Hnd Hin].
  split; [ apply Hnd; constructor | ].
  intro y. rewrite Hin. split; [ | auto ]. now intros [[] | H].
Qed.

End FindDuplicatesFacts.

Lemma find_duplicates_exact_witness :
  (forall x y, Z.eqb x y = true <-> x = y)
  /\ NoDup (find_duplicates Z.eqb [1; 2; 1; 3; 2; 1])
  /\ forall y,
       In y (find_duplicates Z.eqb [1; 2; 1; 3; 2; 1]) <->
       exists l1 l2 l3, [1; 2; 1; 3; 2; 1] = l1 ++ y :: l2 ++ y :: l3.
Proof.
  split; [ exact Z.eqb_eq | ].
  apply (find_duplicates_exact Z Z.eqb Z.eqb_eq [1; 2; 1; 3; 2; 1]).
Defined.

(** ** [DataProcessor] *)

Section DataProcessorFacts.

Variable strip_upper : string -> string.

Lemma split_comma_nonempty (s : string) : split_comma s <> [].
Proof.
  destruct s as [ | c s]; cbn [split_comma]; [ discriminate | ].
  destruct (Ascii.eqb c ","%char); [ discriminate | ].
  destruct (split_comma s); discriminate.
Qed.

Lemma process_items_twice (items : list string) (self : DataProcessor) :
  fold_left
    (fun self item =>
       fst (process_item strip_upper (fst (process_item strip_upper self item)) item))
    items self
  = {| data := data self
               ++ flat_map (fun item => [strip_upper item; strip_upper item]) items;
       processed_count := processed_count self + 2 * Z.of_nat (List.length items) |}.
Proof.
  revert self. induction items as [ | item items IH]; intro self.
  - cbn. rewrite app_nil_r, Z.add_0_r. now destruct self.
  - cbn [fold_left]. rewrite IH. cbn [process_item fst data processed_count flat_map].
    f_equal.
    + now rewrite <- !app_assoc.
    + cbn [List.length]. lia.
Qed.

(** [process_file] handles every item of the file twice: when the
    file can be read, it returns the pieces between the commas as
    they are, and the processor has gained, in order, two processed
    copies of every piece and counts two more per piece.  There is
    always at least one piece, so even an empty file adds two
    records.  When the file cannot be opened the exception is passed
    on and the processor is as before. *)
Theorem process_file_doubles (self : DataProcessor) (text : string) (e : exn) :
  process_file strip_upper self (Ok text) =
  ({| data := data self
              ++ flat_map (fun item => [strip_upper item; strip_upper item])
                   (split_comma text);
      processed_count :=
        processed_count self + 2 * Z.of_nat (List.length (split_comma text)) |},
   Ok (split_comma text))
  /\ (1 <= List.length (split_comma text))%nat
  /\ process_file strip_upper self (Raise e) = (self, Raise e).
Proof.
  split; [ | split; [ | reflexivity ] ].
  - unfold process_file. now rewrite process_items_twice.
  - pose proof (split_comma_nonempty text). destruct (split_comma text); [ congruence | ].
    cbn. lia.
Qed.

(** The counter of a processor is the length of its data: a
    processor for which this holds (a new one does) keeps it through
    [process_item] and [process_file], whatever the file. *)
Theorem processed_count_is_length (self : DataProcessor) :
  processed_count self = Z.of_nat (List.length (data self)) ->
  (forall item,
     processed_count (fst (process_item strip_upper self item)) =
     Z.of_nat (List.length (data (fst (process_item strip_upper self item)))))
  /\ forall file,
       processed_count (fst (process_file strip_upper self file)) =
       Z.of_nat (List.length (data (fst (process_file strip_upper self file)))).
Proof.
  intro H. split.
  - intro item. cbn [process_item fst data processed_count].
    rewrite length_app. cbn [List.length]. lia.
  - intros [text | e]; [ | exact H ].
    unfold process_file. cbn [fst]. rewrite process_items_twice.
    cbn [data processed_count]. rewrite length_app, H.
    induction (split_comma text) as [ | item items IH]; cbn [flat_map List.length app];
      lia.
Qed.

End DataProcessorFacts.

Lemma processed_count_is_length_witness :
  processed_count new_processor = Z.of_nat (List.length (data new_processor))
  /\ processed_count (fst (process_file (fun s => s) new_processor (Ok "a,b"))) =
     Z.of_nat (List.length (data (fst (process_file (fun s => s) new_processor (Ok "a,b"))))).
Proof.
  split; [ reflexivity | ].
  destruct (processed_count_is_length (fun s => s) new_processor eq_refl) as [_ H].
  apply (H (Ok "a,b")).
Defined.
